(** * Verification of the SigtraConfig trading core

    Shallow embedding of the sizing, matching, execution and backtest code.
    JavaScript numbers are modelled as exact rationals [Q]; the string
    fields the code compares ('LONG', 'buy', ...) are modelled as enums. *)

From Stdlib Require Import QArith Qround Qabs Lqa ZArith List String Bool Lia.
Import ListNotations.
Open Scope Q_scope.

(** ** JavaScript number helpers *)
Module Js.

(** [Math.round x]: the nearest integer, halves rounded towards +infinity. *)
Definition math_round (x : Q) : Q := inject_Z (Qfloor (x + (1#2))).

(** [parseFloat(x.toFixed(k))]: |x| rounded half-up to [k] decimals, sign
    kept (toFixed prints "-" followed by the rounding of -x). *)
Definition to_fixed (k : nat) (x : Q) : Q :=
  let s := inject_Z (10 ^ Z.of_nat k) in
  if Qle_bool 0 x then inject_Z (Qfloor (x * s + (1#2))) / s
  else - (inject_Z (Qfloor ((- x) * s + (1#2))) / s).

(** [Math.min a b] *)
Definition math_min (a b : Q) : Q := if Qle_bool a b then a else b.

(** A JS truthiness test [!x] on a number that may be missing. *)
Definition falsy (x : option Q) : bool :=
  match x with None => true | Some v => Qeq_bool v 0 end.

End Js.

(** ** Shared data *)
Inductive Direction := LONG | SHORT | HOLD.

Record Candle := mkCandle {
  c_high : Q; c_low : Q; c_close : Q; c_timestamp : Z
}.

Fixpoint last_close (ohlc : list Candle) : option Q :=
  match ohlc with
  | [] => None
  | [c] => Some (c_close c)
  | _ :: rest => last_close rest
  end.

(** ** RiskManager (riskManager.js, bundled in src/logger.js) *)
Module Risk.

Record RiskManager := mkRiskManager { leverage : Q; marginBuffer : Q }.

(** [new RiskManager(config)]: [config.leverage || 10],
    [config.marginBuffer || 0.01]; a missing or zero field is replaced. *)
Definition new_RiskManager (cfg_leverage cfg_marginBuffer : option Q) : RiskManager :=
  mkRiskManager
    (if Js.falsy cfg_leverage then 10 else match cfg_leverage with Some v => v | None => 10 end)
    (if Js.falsy cfg_marginBuffer then 1#100
     else match cfg_marginBuffer with Some v => v | None => 1#100 end).

Record MarketData := mkMarketData { md_balance : option Q; md_ohlc : list Candle }.

Record TradingSignal := mkSignal {
  ts_signal : Direction;
  stop_loss_distance_in_usd : option Q;
  take_profit_distance_in_usd : option Q
}.

Record TradeParams := mkTradeParams { size : Q; stopLoss : Q; takeProfit : Q }.

(** The outcome of [calculateTradeParameters]: it throws a TypeError when
    [ohlc] is empty ([ohlc[-1].close]), returns null, or returns params. *)
Inductive Outcome := Threw | Null | Params (p : TradeParams).

(** Intermediate quantities of the function, named as in the source. *)
Definition sizeInUnits (rm : RiskManager) (balance lastPrice sld : Q) : Q :=
  let totalCapitalToRisk := balance * (2#100) in
  let raw := totalCapitalToRisk / sld in
  let maxSizeBasedOnMargin := ((balance * leverage rm) / lastPrice) * (95#100) in
  Js.math_min raw maxSizeBasedOnMargin.

Definition marginRequired (rm : RiskManager) (sz lastPrice : Q) : Q :=
  let positionValueUSD := sz * lastPrice in
  (positionValueUSD / leverage rm) * (1 + marginBuffer rm).

Definition calculateTradeParameters (rm : RiskManager) (md : MarketData)
    (sig : TradingSignal) : Outcome :=
  match last_close (md_ohlc md) with
  | None => Threw
  | Some lastPrice =>
    if Js.falsy (md_balance md) then Null else
    let balance := match md_balance md with Some b => b | None => 0 end in
    if Qle_bool balance 0 then Null else
    if Js.falsy (stop_loss_distance_in_usd sig) then Null else
    let sld := match stop_loss_distance_in_usd sig with Some d => d | None => 0 end in
    if Qle_bool sld 0 then Null else
    if Js.falsy (take_profit_distance_in_usd sig) then Null else
    let tpd := match take_profit_distance_in_usd sig with Some d => d | None => 0 end in
    if Qle_bool tpd 0 then Null else
    let sz := sizeInUnits rm balance lastPrice sld in
    if negb (Qle_bool (marginRequired rm sz lastPrice) balance) then Null else
    if negb (Qle_bool (1#10000) sz) then Null else
    let stopLossPrice :=
      match ts_signal sig with LONG => lastPrice - sld | _ => lastPrice + sld end in
    let takeProfitPrice :=
      match ts_signal sig with LONG => lastPrice + tpd | _ => lastPrice - tpd end in
    Params (mkTradeParams (Js.to_fixed 4 sz)
                          (Js.to_fixed 0 stopLossPrice)
                          (Js.to_fixed 0 takeProfitPrice))
  end.

(** The two configurations used by the repository. *)
Definition backtest_rm := new_RiskManager (Some 10) (Some (1#100)).
Definition bot_rm := new_RiskManager (Some 10) (Some (4#10)).


(** Concrete inputs used below. *)
Definition candle_at (price : Q) : Candle := mkCandle price price price 0.

(** End-to-end scenario A of the spec. *)
Definition scenarioA_market := mkMarketData (Some 10000) [candle_at 50000].
Definition scenarioA_signal := mkSignal LONG (Some 100) (Some 300).

(** The two sizes of scenario A before the minimum is taken:
    [rawSize = 10000 * 0.02 / 100] and
    [marginCapSize = 10000 * leverage / 50000 * 0.95]. *)
Definition scenarioA_sizes (rm : RiskManager) : Prop :=
  (10000 * (2#100)) / 100 == 2 /\
  ((10000 * leverage rm) / 50000) * (95#100) == 19#10 /\
  sizeInUnits rm 10000 50000 100 == 19#10.

(** A one-dollar account at last price 60000: the margin cap binds and
    rounding raises the size. *)
Definition small_market := mkMarketData (Some 1) [candle_at 60000].
Definition small_signal := mkSignal LONG (Some 1) (Some 1).

(** Sub-dollar distances around a whole-dollar price. *)
Definition tight_market := mkMarketData (Some 10000) [candle_at 100].
Definition tight_signal := mkSignal LONG (Some (3#10)) (Some (3#10)).

End Risk.

(** ** BacktestRunner (src/backtestRunner.js) *)
Module Backtest.
Import Risk.

(** The open trade as [_checkExit] reads it ([t.signal], [t.stopLoss],
    [t.takeProfit]) plus the fields [placeOrder] is given. *)
Record OpenTrade := mkOpenTrade {
  t_signal : Direction; t_entryPrice : Q; t_entryTime : Z;
  t_size : Q; t_stopLoss : Q; t_takeProfit : Q
}.

Inductive ExitReason := StopLossExit | TakeProfitExit.

(** The [exitPrice]/[exitReason] pair computed by [_checkExit]: two
    independent [if]s, the second assignment overriding the first. *)
Definition checkExit_decision (t : OpenTrade) (candle : Candle) : option (Q * ExitReason) :=
  let none := None in
  match t_signal t with
  | LONG =>
    let d1 := if Qle_bool (c_low candle) (t_stopLoss t)
              then Some (t_stopLoss t, StopLossExit) else none in
    if Qle_bool (t_takeProfit t) (c_high candle)
    then Some (t_takeProfit t, TakeProfitExit) else d1
  | SHORT =>
    let d1 := if Qle_bool (t_stopLoss t) (c_high candle)
              then Some (t_stopLoss t, StopLossExit) else none in
    if Qle_bool (c_low candle) (t_takeProfit t)
    then Some (t_takeProfit t, TakeProfitExit) else d1
  | HOLD => none
  end.

(** The argument of [this.exec.placeOrder]. *)
Record OrderReq := mkOrderReq {
  or_signal : Direction; or_params : TradeParams; or_entryPrice : Q; or_entryTime : Z
}.

(** The interface of the backtest execution handler used by the runner. *)
Class BacktestExec (S : Type) := {
  getOpenTrade : S -> option OpenTrade;
  closeTrade : S -> OpenTrade -> Q -> Z -> S;
  placeOrder : S -> OrderReq -> S;
  exec_balance : S -> Q
}.

Record Config := mkConfig {
  WARMUP_PERIOD : nat; DATA_WINDOW_SIZE : nat; MAX_API_CALLS : nat;
  MINIMUM_CONFIDENCE_THRESHOLD : Q
}.

(** What [strat.generateSignal] answers on the k-th call (an external model);
    [None] when its promise is rejected, which [_handleSignal] and [run()]
    do not catch. *)
Definition SignalSource := nat -> list Candle -> option (TradingSignal * Q).

(** [Array.prototype.slice(start, end)] with negative indices counted from the end. *)
Definition js_slice {A} (l : list A) (start stop : Z) : list A :=
  let len := Z.of_nat (List.length l) in
  let norm k := if (k <? 0)%Z then Z.max (len + k) 0 else Z.min k len in
  let s := norm start in
  let e := norm stop in
  firstn (Z.to_nat (e - s)) (skipn (Z.to_nat s) l).

(** [filterByDate(candles, '2025-07-02', '2025-08-01')] in epoch seconds. *)
Definition filterByDate (candles : list Candle) : list Candle :=
  filter (fun c => (1751414400 <=? c_timestamp c)%Z && (c_timestamp c <? 1754006400)%Z) candles.

Inductive EndReason := Exhausted | BrokeAt (i : nat).

Inductive RunResult (St : Type) :=
| RunThrew
| RunDone (ex : St) (apiCalls : nat) (how : EndReason).
Arguments RunThrew {St}.
Arguments RunDone {St} ex apiCalls how.

Section Runner.
Context {St : Type} `{BacktestExec St}.
Variable cfg : Config.
Variable strat : SignalSource.
Variable candles : list Candle.

(** [this.risk = new RiskManager({ leverage: 10, marginBuffer: 0.01 })] *)
Definition risk := backtest_rm.

Definition default_candle := mkCandle 0 0 0 0.

(** [_checkExit(candle)] on the open trade [t]; [if (exitPrice)] skips a
    zero price. *)
Definition checkExit (ex : St) (t : OpenTrade) (candle : Candle) : St :=
  match checkExit_decision t candle with
  | Some (exitPrice, _) =>
    if Qeq_bool exitPrice 0 then ex else closeTrade ex t exitPrice (c_timestamp candle)
  | None => ex
  end.

(** [_handleSignal(market, candle, apiCalls)]; [None] when
    [generateSignal] rejects or [calculateTradeParameters] throws (empty
    window). The sleep that spaces the calls only delays. *)
Definition handleSignal (ex : St) (window : list Candle) (candle : Candle)
    (apiCalls : nat) : option St :=
  match strat apiCalls window with
  | None => None
  | Some (sig, confidence) =>
    let notHold := match ts_signal sig with HOLD => false | _ => true end in
    if notHold && Qle_bool (MINIMUM_CONFIDENCE_THRESHOLD cfg) confidence then
      match calculateTradeParameters risk (mkMarketData (Some (exec_balance ex)) window) sig with
      | Threw => None
      | Null => Some ex
      | Params p =>
        if Qle_bool (size p) 0 then Some ex
        else Some (placeOrder ex (mkOrderReq (ts_signal sig) p (c_close candle) (c_timestamp candle)))
      end
    else Some ex
  end.

(** The exit check at the top of each iteration. *)
Definition exit_step (ex : St) (candle : Candle) : St :=
  match getOpenTrade ex with Some t => checkExit ex t candle | None => ex end.

(** The [for] loop of [run()] over the indices [idxs]. *)
Fixpoint run_loop (idxs : list nat) (ex : St) (apiCalls : nat) : RunResult St :=
  match idxs with
  | [] => RunDone ex apiCalls Exhausted
  | i :: rest =>
    let candle := nth i candles default_candle in
    let window := js_slice candles (Z.of_nat i - Z.of_nat (DATA_WINDOW_SIZE cfg)) (Z.of_nat i) in
    let ex1 := exit_step ex candle in
    match getOpenTrade ex1 with
    | Some _ => run_loop rest ex1 apiCalls
    | None =>
      if (MAX_API_CALLS cfg <=? apiCalls)%nat then RunDone ex1 apiCalls (BrokeAt i)
      else match handleSignal ex1 window candle (S apiCalls) with
           | None => RunThrew
           | Some ex2 => run_loop rest ex2 (S apiCalls)
           end
    end
  end.

(** [run()] on the already date-filtered candle list. *)
Definition run_filtered (ex0 : St) : RunResult St :=
  if (List.length candles <? WARMUP_PERIOD cfg)%nat then RunThrew
  else run_loop (seq (WARMUP_PERIOD cfg) (List.length candles - WARMUP_PERIOD cfg)) ex0 0.

(** The behaviour once the budget is spent: exit checks only, and a
    [break] at the first candle after which no trade is open. *)
Fixpoint exits_then_break (idxs : list nat) (ex : St) (apiCalls : nat) : RunResult St :=
  match idxs with
  | [] => RunDone ex apiCalls Exhausted
  | i :: rest =>
    let ex1 := exit_step ex (nth i candles default_candle) in
    match getOpenTrade ex1 with
    | Some _ => exits_then_break rest ex1 apiCalls
    | None => RunDone ex1 apiCalls (BrokeAt i)
    end
  end.
End Runner.

(** [run()]: date filter, warm-up check, then the loop. *)
Definition run {St} `{BacktestExec St} (cfg : Config) (strat : SignalSource)
    (allCandles : list Candle) (ex0 : St) : RunResult St :=
  run_filtered cfg strat (filterByDate allCandles) ex0.

(** Modelled from the spec: [BacktestExecutionHandler]
    (backtestExecutionHandler.js is not in the repository's sources).
    It holds a paper balance and at most one open trade, opens a trade at
    the given entry price with the sizer's stop and target, and on
    [closeTrade] books the pnl into the balance and the closed-trade list. *)
Record PaperState := mkPaper {
  paper_balance : Q; paper_open : option OpenTrade; paper_closed : list (OpenTrade * Q * Z)
}.

#[global] Instance paper_exec : BacktestExec PaperState := {
  getOpenTrade := paper_open;
  closeTrade := fun st t exitPrice ts =>
    let pnl := match t_signal t with
               | LONG => (exitPrice - t_entryPrice t) * t_size t
               | _ => (t_entryPrice t - exitPrice) * t_size t end in
    mkPaper (paper_balance st + pnl) None (paper_closed st ++ [(t, exitPrice, ts)]);
  placeOrder := fun st o =>
    mkPaper (paper_balance st)
      (Some (mkOpenTrade (or_signal o) (or_entryPrice o) (or_entryTime o)
               (size (or_params o)) (stopLoss (or_params o)) (takeProfit (or_params o))))
      (paper_closed st);
  exec_balance := paper_balance
}.

(** Concrete inputs used below. *)
Definition both_touched_trade := mkOpenTrade LONG 50000 0 1 49900 50300.
Definition wide_candle := mkCandle 50400 49800 50000 60.
Definition zero_budget_cfg := mkConfig 0 0 0 0.
Definition hold_source : SignalSource := fun _ _ => Some (mkSignal HOLD None None, 0).
Definition two_candles := [mkCandle 101 99 100 1751414400; mkCandle 102 98 100 1751418000].

End Backtest.

(** ** Fill matching *)
Module Fills.

(** A raw fill as reported by the venue. [fillTime] is kept as epoch
    milliseconds (what [new Date(f.fillTime)] compares). *)
Record RawFill := mkFill {
  f_side : string; f_size : Q; f_price : Q; f_fillTime : Z
}.

(** *** [buildLast10ClosedFromRawFills] (src/unnamed/part_001) *)
Record Lot := mkLot {
  l_side : Direction; l_entryTime : Z; l_entryPrice : Q; l_size : Q
}.

Record ClosedTrade := mkClosed {
  ct_side : Direction; ct_entryTime : Z; ct_entryPrice : Q;
  ct_exitTime : Z; ct_exitPrice : Q; ct_size : Q; ct_pnl : Q
}.

Definition dir_eqb (a b : Direction) : bool :=
  match a, b with LONG, LONG | SHORT, SHORT | HOLD, HOLD => true | _, _ => false end.

(** The inner [while (remaining > 0 && queue.length && queue[0].side !== side)];
    every iteration either shifts a lot away or leaves [remaining] at 0,
    so [S (length queue)] iterations are enough. *)
Fixpoint fifo_loop (fuel : nat) (f : RawFill) (side : Direction) (remaining : Q)
    (queue : list Lot) (closed : list ClosedTrade) : Q * list Lot * list ClosedTrade :=
  match fuel with
  | O => (remaining, queue, closed)
  | S fuel' =>
    match queue with
    | open_ :: rest =>
      if negb (Qle_bool remaining 0) && negb (dir_eqb (l_side open_) side) then
        let m := Js.math_min remaining (l_size open_) in
        let pnl := (f_price f - l_entryPrice open_) * m *
                   (match l_side open_ with LONG => 1 | _ => -1 end) in
        let closed' := closed ++ [mkClosed (l_side open_) (l_entryTime open_)
                                    (l_entryPrice open_) (f_fillTime f) (f_price f) m pnl] in
        let size' := l_size open_ - m in
        let queue' := if negb (Qle_bool size' 0)
                      then mkLot (l_side open_) (l_entryTime open_) (l_entryPrice open_) size' :: rest
                      else rest in
        fifo_loop fuel' f side (remaining - m) queue' closed'
      else (remaining, queue, closed)
    | [] => (remaining, queue, closed)
    end
  end.

Definition last_lot (queue : list Lot) : option Lot :=
  match rev queue with [] => None | l :: _ => Some l end.

(** One iteration of [for (const f of fills)]. *)
Definition fifo_step (st : list Lot * list ClosedTrade) (f : RawFill) : list Lot * list ClosedTrade :=
  let '(queue, closed) := st in
  let side := if String.eqb (f_side f) "buy" then LONG else SHORT in
  let push sz := queue ++ [mkLot side (f_fillTime f) (f_price f) sz] in
  match last_lot queue with
  | None => (push (f_size f), closed)
  | Some l =>
    if dir_eqb (l_side l) side then (push (f_size f), closed)
    else
      let '(remaining, queue', closed') :=
        fifo_loop (S (List.length queue)) f side (f_size f) queue closed in
      if negb (Qle_bool remaining 0)
      then (queue' ++ [mkLot side (f_fillTime f) (f_price f) remaining], closed')
      else (queue', closed')
  end.

(** The matching of a chronological fill list: the [closed] array. *)
Definition fifo_match (fills : list RawFill) : list Lot * list ClosedTrade :=
  fold_left fifo_step fills ([], []).

(** [closed.slice(-n)] *)
Definition slice_last {A} (n : nat) (l : list A) : list A :=
  skipn (List.length l - n) l.

Definition buildLast10ClosedFromRawFills (BOT_START_TIME : Z) (rawFills : list RawFill)
    (n : nat) : list ClosedTrade :=
  match rawFills with
  | [] => []
  | _ =>
    let eligible := filter (fun f => (BOT_START_TIME <=? f_fillTime f)%Z) rawFills in
    match eligible with
    | [] => []
    | _ => rev (slice_last n (snd (fifo_match (rev eligible))))
    end
  end.

(** *** [realizedPnlStatsFromFills] (src/dataHandler.js) *)
Record PLot := mkPLot { pl_side : string; pl_size : Q; pl_price : Q }.

Record Stats := mkStats { realisedPnL : Q; winCount : nat; totalCloses : nat }.

Definition js_sign (x : Q) : Q :=
  if Qle_bool x 0 then (if Qeq_bool x 0 then 0 else -1) else 1.

(** The inner [while (size !== 0 && queue.length)]: the head lot is
    consumed whatever its side; a pnl is booked only when the sides
    differ. Every iteration shifts the head or brings [size] to 0. *)
Fixpoint pnl_loop (fuel : nat) (price size : Q) (queue : list PLot) (st : Stats)
    : Q * list PLot * Stats :=
  match fuel with
  | O => (size, queue, st)
  | S fuel' =>
    match queue with
    | head :: rest =>
      if Qeq_bool size 0 then (size, queue, st) else
      let headQty := if String.eqb (pl_side head) "buy" then pl_size head else - pl_size head in
      let matchQty := Js.math_min (Qabs size) (Qabs headQty) in
      let closeBuy := negb (Qle_bool size 0) in
      let openBuy := negb (Qle_bool headQty 0) in
      let st' :=
        if Bool.eqb closeBuy openBuy then st
        else
          let pnl := (price - pl_price head) * matchQty * pl_price head in
          mkStats (realisedPnL st + pnl)
                  (if negb (Qle_bool pnl 0) then S (winCount st) else winCount st)
                  (S (totalCloses st)) in
      let queue' :=
        if Qeq_bool (Qabs headQty) matchQty then rest
        else mkPLot (pl_side head) (pl_size head - matchQty * js_sign headQty) (pl_price head) :: rest in
      pnl_loop fuel' price (size - matchQty * js_sign size) queue' st'
    | [] => (size, queue, st)
    end
  end.

(** One iteration of [for (const f of fills)], on the queue and the stats. *)
Definition pnl_step (acc : list PLot * Stats) (f : RawFill) : list PLot * Stats :=
  let '(queue, st) := acc in
  let size := if String.eqb (f_side f) "sell" then - f_size f else f_size f in
  let '(size', queue', st') := pnl_loop (S (S (List.length queue))) (f_price f) size queue st in
  if Qeq_bool size' 0 then (queue', st')
  else (queue' ++ [mkPLot (if Qle_bool size' 0 then "sell" else "buy") (Qabs size') (f_price f)], st').

Definition realizedPnlStatsFromFills (fills : list RawFill) : Stats :=
  snd (fold_left pnl_step fills ([], mkStats 0 0 0)).

(** The queue after each fill, in order. *)
Fixpoint queue_trace (acc : list PLot * Stats) (fills : list RawFill) : list (list PLot) :=
  match fills with
  | [] => []
  | f :: rest => let acc' := pnl_step acc f in fst acc' :: queue_trace acc' rest
  end.

(** Scenario B of the spec, oldest fill first, one second apart. *)
Definition scenarioB : list RawFill :=
  [mkFill "buy" 1 100 1000; mkFill "buy" 1 101 2000; mkFill "sell" 2 105 3000].

(** The lots and trades scenario B is expected to produce. *)
Definition lot100 := mkLot LONG 1000 100 1.
Definition lot101 := mkLot LONG 2000 101 1.
Definition trade100 := mkClosed LONG 1000 100 3000 105 1 5.
Definition trade101 := mkClosed LONG 2000 101 3000 105 1 4.

End Fills.

(** ** ExecutionHandler (src/executionHandler.js) *)
Module Exec.
Import Risk.

(** An order object as sent to the venue ([order] and [order_tag] are
    set only inside a batch). *)
Record OrderSpec := mkOrder {
  o_order : option string; o_order_tag : option string;
  o_orderType : string; o_symbol : string; o_side : string; o_size : Q;
  o_limitPrice : option Q; o_stopPrice : option Q; o_reduceOnly : bool
}.

(** The calls the handler makes, in order. *)
Inductive Action :=
| SendOrder (o : OrderSpec)
| GetRecentOrders (count : nat)
| Sleep (ms : Z)
| BatchOrder (orders : list OrderSpec).

(** A call to the venue either throws or returns. *)
Inductive Reply (A : Type) := Thrown | Returned (a : A).
Arguments Thrown {A}.
Arguments Returned {A} a.

Record SendStatus := mkSendStatus { order_id : option string }.
Record EntryResponse := mkEntryResponse { er_result : string; er_sendstatus : option SendStatus }.
Record VenueOrder := mkVenueOrder {
  vo_orderId : option string; vo_isFilled : bool; vo_averagePrice : Q
}.

(** The venue's answers: [sendOrder] ([None] is a null response),
    the k-th [getRecentOrders] ([None] when [orders] is missing) and the
    milliseconds it takes, and [batchOrder]. *)
Record Venue := mkVenue {
  v_sendOrder : Reply (option EntryResponse);
  v_recentOrders : nat -> Reply (option (list VenueOrder));
  v_pollLatency : nat -> N;
  v_batchOrder : Reply string
}.

Definition TIMEOUT_MS : Z := 60000.
Definition POLL_INTERVAL_MS : Z := 5000.

Definition opt_string_eqb (a b : option string) : bool :=
  match a, b with
  | Some x, Some y => String.eqb x y
  | None, None => true
  | _, _ => false
  end.

(** The [while (Date.now() - startTime < TIMEOUT_MS)] loop, [elapsed]
    being [Date.now() - startTime]. Each iteration takes at least the 5 s
    sleep, so at most 13 iterations run ([monitor_fuel]). *)
Fixpoint monitor_loop (v : Venue) (orderId : option string) (fuel k : nat) (elapsed : Z)
    : list Action * option VenueOrder :=
  match fuel with
  | O => ([], None)
  | S fuel' =>
    if (elapsed <? TIMEOUT_MS)%Z then
      let elapsed1 := (elapsed + Z.of_N (v_pollLatency v k))%Z in
      let found :=
        match v_recentOrders v k with
        | Returned (Some orders) => find (fun o => opt_string_eqb (vo_orderId o) orderId) orders
        | Returned None => None
        | Thrown => None
        end in
      match found with
      | Some o => if vo_isFilled o then ([GetRecentOrders 5], Some o)
                  else let '(acts, r) := monitor_loop v orderId fuel' (S k) (elapsed1 + POLL_INTERVAL_MS) in
                       (GetRecentOrders 5 :: Sleep POLL_INTERVAL_MS :: acts, r)
      | None => let '(acts, r) := monitor_loop v orderId fuel' (S k) (elapsed1 + POLL_INTERVAL_MS) in
                (GetRecentOrders 5 :: Sleep POLL_INTERVAL_MS :: acts, r)
      end
    else ([], None)
  end.

Definition monitor_fuel : nat := 13.

Definition monitorOrderFill (v : Venue) (orderId : option string) : list Action * option VenueOrder :=
  monitor_loop v orderId monitor_fuel 0 0.

Definition entrySide (signal : Direction) : string :=
  match signal with LONG => "buy" | _ => "sell" end.

Definition entryOrder (signal : Direction) (pair : string) (p : TradeParams) : OrderSpec :=
  mkOrder None None "mkt" pair (entrySide signal) (size p) None None false.

(** The entry response check; [Some id] when it passes, [id] being
    [entryResponse.sendstatus.order_id]. *)
Definition entry_order_id (v : Venue) : option (option string) :=
  match v_sendOrder v with
  | Returned (Some er) =>
    if String.eqb (er_result er) "success" then
      match er_sendstatus er with Some st => Some (order_id st) | None => None end
    else None
  | _ => None
  end.

Definition closeSide (signal : Direction) : string :=
  match signal with LONG => "sell" | _ => "buy" end.

Definition stopSlippagePercent : Q := 1#100.

Definition stopLimitPrice (signal : Direction) (stopLoss : Q) : Q :=
  if String.eqb (closeSide signal) "sell"
  then Js.math_round (stopLoss * (1 - stopSlippagePercent))
  else Js.math_round (stopLoss * (1 + stopSlippagePercent)).

Definition exitBatch (signal : Direction) (pair : string) (sz stopLoss takeProfit : Q)
    : list OrderSpec :=
  [mkOrder (Some "send"%string) (Some "stop-loss"%string) "stp" pair (closeSide signal) sz
           (Some (stopLimitPrice signal stopLoss)) (Some stopLoss) true;
   mkOrder (Some "send"%string) (Some "take-profit"%string) "lmt" pair (closeSide signal) sz
           (Some takeProfit) None true].

Inductive Outcome := Completed | EntryTimedOut | Threw.

(** [placeExitOrders]: one [batchOrder] call; rethrows when it throws. *)
Definition placeExitOrders (v : Venue) (signal : Direction) (pair : string)
    (sz stopLoss takeProfit : Q) : list Action * bool :=
  ([BatchOrder (exitBatch signal pair sz stopLoss takeProfit)],
   match v_batchOrder v with Thrown => false | Returned _ => true end).

(** [placeOrder({ signal, pair, params })]: the calls made and how it ends. *)
Definition placeOrder (v : Venue) (signal : Direction) (pair : string) (p : TradeParams)
    : list Action * Outcome :=
  let send := SendOrder (entryOrder signal pair p) in
  match entry_order_id v with
  | None => ([send], Threw)
  | Some id =>
    let '(polls, filled) := monitorOrderFill v id in
    match filled with
    | None => (send :: polls, EntryTimedOut)
    | Some _ =>
      let '(exits, ok) := placeExitOrders v signal pair (size p) (stopLoss p) (takeProfit p) in
      (send :: polls ++ exits, if ok then Completed else Threw)
    end
  end.

(** An action that places a stop-loss or take-profit order. *)
Definition is_exit_action (a : Action) : bool :=
  match a with
  | BatchOrder _ => true
  | SendOrder o => o_reduceOnly o
  | _ => false
  end.

Definition batches (acts : list Action) : list (list OrderSpec) :=
  flat_map (fun a => match a with BatchOrder os => [os] | _ => [] end) acts.

Fixpoint poll_count (acts : list Action) : nat :=
  match acts with
  | [] => O
  | GetRecentOrders _ :: rest => S (poll_count rest)
  | _ :: rest => poll_count rest
  end.

(** A venue that accepts and fills everything at once. *)
Definition filling_venue : Venue :=
  mkVenue (Returned (Some (mkEntryResponse "success" (Some (mkSendStatus (Some "e1"%string))))))
          (fun _ => Returned (Some [mkVenueOrder (Some "e1"%string) true 50000]))
          (fun _ => 100%N)
          (Returned "success"%string).


(** A venue whose entry order is accepted but never reported filled. *)
Definition never_filling_venue : Venue :=
  mkVenue (v_sendOrder filling_venue) (fun _ => Returned None) (fun _ => 0%N) (Returned "success"%string).

Definition low_stop_params := mkTradeParams 1 50 300.
Definition scenarioA_params := mkTradeParams (19#10) 49900 50300.

End Exec.

(** ** Indicators and summary of the backtest runner (src/backtestRunner.js) *)
Module Indicators.
Import Risk Backtest.

(** [Math.max(a, b)] *)
Definition math_max (a b : Q) : Q := if Qle_bool a b then b else a.

(** [Math.max(h - l, Math.abs(h - pc), Math.abs(l - pc))] *)
Definition true_range (h l pc : Q) : Q :=
  math_max (math_max (h - l) (Qabs (h - pc))) (Qabs (l - pc)).

(** The [tr] array of [calculateATR]: for [i = 1 .. ohlc.length - 1] the
    true range of [ohlc[i]] against the close of [ohlc[i - 1]]. *)
Fixpoint tr_list (ohlc : list Candle) : list Q :=
  match ohlc with
  | prev :: ((cur :: _) as rest) =>
    true_range (c_high cur) (c_low cur) (c_close prev) :: tr_list rest
  | _ => []
  end.

(** [calculateATR(ohlc, period)]: the mean of [tr.slice(-period)];
    [None] is the NaN of [0 / 0] when that window is empty. *)
Definition calculateATR (ohlc : list Candle) (period : nat) : option Q :=
  let tr := tr_list ohlc in
  let atrWindow := js_slice tr (- Z.of_nat period) (Z.of_nat (List.length tr)) in
  match atrWindow with
  | [] => None
  | _ => Some (fold_left Qplus atrWindow 0 / inject_Z (Z.of_nat (List.length atrWindow)))
  end.

(** The figures [_printSummary] logs, from the pnl of each trade of
    [this.exec.getTrades()]. *)
Record Summary := mkSummary {
  totalTrades : nat; winningTrades : nat; losingTrades : nat; totalPnl : Q
}.

Definition printSummary (pnls : list Q) : Summary :=
  let totalTrades := List.length pnls in
  let winningTrades := List.length (filter (fun pnl => negb (Qle_bool pnl 0)) pnls) in
  let losingTrades := (totalTrades - winningTrades)%nat in
  let totalPnl := fold_left Qplus pnls 0 in
  mkSummary totalTrades winningTrades losingTrades totalPnl.

End Indicators.

(** ** Parsed JSON values *)
Module JsonData.

#[warnings="-register-all"]
Inductive Json :=
| JNull
| JBool (b : bool)
| JNum (q : Q)
| JStr (s : string)
| JArr (items : list Json)
| JObj (fields : list (string * Json)).

(** [j?.k]; [None] is undefined. A key repeated in the text keeps its
    last value, as with [JSON.parse]. The keys read below are no
    properties of arrays or strings. *)
Definition get (k : string) (j : option Json) : option Json :=
  match j with
  | Some (JObj fields) =>
    match find (fun kv => String.eqb (fst kv) k) (rev fields) with
    | Some (_, v) => Some v
    | None => None
    end
  | _ => None
  end.

(** JavaScript truthiness of a possibly undefined value. *)
Definition truthy (j : option Json) : bool :=
  match j with
  | None | Some JNull => false
  | Some (JBool b) => b
  | Some (JNum q) => negb (Qeq_bool q 0)
  | Some (JStr s) => negb (String.eqb s "")
  | Some (JArr _) | Some (JObj _) => true
  end.

End JsonData.

(** ** DataHandler.fetchAccountBalance (src/dataHandler.js) *)
Module DataH.
Import JsonData Exec.

Definition available_margin (data : Json) : option Json :=
  get "availableMargin" (get "flex" (get "accounts" (Some data))).

(** The answer of [this.api.getAccounts()] ([Thrown] when it throws):
    a number at [accounts.flex.availableMargin] is returned, anything else
    and any error give 0. *)
Definition fetchAccountBalance (reply : Reply Json) : Q :=
  match reply with
  | Returned data =>
    match available_margin data with Some (JNum m) => m | _ => 0 end
  | Thrown => 0
  end.

End DataH.

(** ** StrategyEngine (src/strategyEngine.js) *)
Module Strategy.
Import Risk Backtest Indicators JsonData Exec.

(** [_fail(reason)]: HOLD with confidence 0 and zero distances. *)
Definition fail_signal : TradingSignal * Q := (mkSignal HOLD (Some 0) (Some 0), 0).

(** [Array.prototype.at(k)] *)
Definition js_at {A} (l : list A) (k : Z) : option A :=
  let len := Z.of_nat (List.length l) in
  let i := if (k <? 0)%Z then (len + k)%Z else k in
  if (0 <=? i)%Z && (i <? len)%Z then nth_error l (Z.to_nat i) else None.

(** The i-th iteration of the loop of [atr(ohlc, len)]; [None] when
    [ohlc.at(-i)] is undefined, so that reading [.high] throws. *)
Definition atr_tr (ohlc : list Candle) (i : nat) : option Q :=
  match js_at ohlc (- Z.of_nat i) with
  | None => None
  | Some c =>
    let pc := match js_at ohlc (- Z.of_nat i - 1) with
              | Some p => c_close p
              | None => c_close c
              end in
    Some (true_range (c_high c) (c_low c) pc)
  end.

Fixpoint all_some {A} (xs : list (option A)) : option (list A) :=
  match xs with
  | [] => Some []
  | None :: _ => None
  | Some x :: rest => match all_some rest with Some ys => Some (x :: ys) | None => None end
  end.

(** [atr(ohlc, len)]; [None] when it throws. *)
Definition atr (ohlc : list Candle) (len : nat) : option Q :=
  match all_some (map (atr_tr ohlc) (seq 1 len)) with
  | None => None
  | Some trs => Some (fold_left Qplus trs 0 / inject_Z (Z.of_nat len))
  end.

Inductive SignalResult := Signal (s : TradingSignal * Q) | Rejected.

(** [generateSignal(marketData)] on [marketData.ohlc]: the empty-ohlc
    guard, then [_prompt], whose [atr(market.ohlc, 50)] throws outside any
    try/catch (the promise is rejected), then the model's parsed answer;
    [answer = None] when the call fails or the answer does not parse, which
    [_fail] answers. The other values computed on the way (fills, CVD,
    closed trades, the prompt's other indicators) do not throw and only
    shape the prompt text. *)
Definition generateSignal (ohlc : list Candle) (answer : option (TradingSignal * Q))
    : SignalResult :=
  match ohlc with
  | [] => Signal fail_signal
  | _ =>
    match atr ohlc 50 with
    | None => Rejected
    | Some _ => match answer with Some s => Signal s | None => Signal fail_signal end
    end
  end.


(** The fields of a fill read by this module's [buildLast10ClosedFromRawFills]
    ([timestamp] may be undefined). *)
Record EFill := mkEFill {
  ef_side : string; ef_price : Q; ef_size : Q; ef_timestamp : option Z
}.

Record PTrade := mkPTrade {
  pt_entryPrice : Q; pt_entryTime : option Z; pt_direction : string; pt_size : Q;
  pt_exitTime : option Z; pt_exitPrice : option Q
}.

(** One iteration of [for (const fill of rawFills)] on
    [(trades, currentTrade)]. *)
Definition ptrade_step (acc : list PTrade * option PTrade) (fill : EFill)
    : list PTrade * option PTrade :=
  let '(trades, currentTrade) := acc in
  match currentTrade with
  | None =>
    (trades, Some (mkPTrade (ef_price fill) (ef_timestamp fill) (ef_side fill) (ef_size fill)
                            None None))
  | Some t =>
    if negb (String.eqb (ef_side fill) (pt_direction t))
    then (trades ++ [mkPTrade (pt_entryPrice t) (pt_entryTime t) (pt_direction t) (pt_size t)
                              (ef_timestamp fill) (Some (ef_price fill))], None)
    else (trades, currentTrade)
  end.

(** Truthiness of a numeric timestamp that may be undefined. *)
Definition truthy_ts (x : option Z) : bool :=
  match x with Some z => negb (Z.eqb z 0) | None => false end.

(** [buildLast10ClosedFromRawFills(rawFills, n)] of strategyEngine.js:
    [trades.filter(t => t.exitTime).slice(-n)]. *)
Definition buildLast10ClosedFromRawFills (rawFills : list EFill) (n : nat) : list PTrade :=
  let trades := fst (fold_left ptrade_step rawFills ([], None)) in
  let kept := filter (fun t => truthy_ts (pt_exitTime t)) trades in
  js_slice kept (- Z.of_nat n) (Z.of_nat (List.length kept)).

(** [readLast10ClosedTradesFromFile()]: [file] is the parse of
    ./trades.json ([Thrown] when reading or parsing throws); [.filter] on
    a value that is no array throws as well, and the catch returns []. *)
Definition readLast10ClosedTradesFromFile (file : Reply Json) : list Json :=
  match file with
  | Returned (JArr trades) =>
    let kept := filter (fun t => truthy (get "exitTime" (Some t))) trades in
    js_slice kept (-10) (Z.of_nat (List.length kept))
  | _ => []
  end.

End Strategy.

(** ** The live bot's helpers and trade ledger (src/bot.js) *)
Module Bot.
Import Risk Indicators JsonData.

(** A candle of the 1-minute feed. *)
Record Bar := mkBar {
  b_open : Q; b_high : Q; b_low : Q; b_close : Q; b_volume : Q; b_time : Z
}.

(** [Math.max(...)] and [Math.min(...)] on a group of three. *)
Definition max3 (a b c : Q) : Q := math_max (math_max a b) c.
Definition min3 (a b c : Q) : Q := Js.math_min (Js.math_min a b) c.

(** The [for] loop of [createThreeMinuteCandles]: for i = 0, 3, 6, ...
    the group [candles.slice(i, i + 3)] is aggregated when
    [i + 2 < candles.length]; a trailing partial group is dropped. *)
Fixpoint group_threes (candles : list Bar) : list Bar :=
  match candles with
  | c0 :: c1 :: c2 :: rest =>
    mkBar (b_open c0) (max3 (b_high c0) (b_high c1) (b_high c2))
          (min3 (b_low c0) (b_low c1) (b_low c2)) (b_close c2)
          (0 + b_volume c0 + b_volume c1 + b_volume c2) (b_time c2)
    :: group_threes rest
  | _ => []
  end.

Definition createThreeMinuteCandles (candles : list Bar) : list Bar :=
  if (List.length candles <? 3)%nat then [] else group_threes candles.

(** A record of [allTrades]; [pnl] undefined is [None]. *)
Record BotTrade := mkBotTrade {
  bt_date : string; bt_size : Q; bt_side : Direction; bt_price : Q;
  bt_stopLoss : Q; bt_takeProfit : Q; bt_pnl : option Q
}.

(** The body of [for (const trade of tradesToSave)] in [cycle()]. *)
Definition update_trade (lastPrice : Q) (trade : BotTrade) : BotTrade :=
  match bt_pnl trade with
  | Some _ => trade
  | None =>
    let finalPrice :=
      match bt_side trade with
      | LONG =>
        if Qle_bool lastPrice (bt_stopLoss trade) || Qle_bool (bt_takeProfit trade) lastPrice
        then Some (if Qle_bool lastPrice (bt_stopLoss trade)
                   then bt_stopLoss trade else bt_takeProfit trade)
        else None
      | SHORT =>
        if Qle_bool (bt_stopLoss trade) lastPrice || Qle_bool lastPrice (bt_takeProfit trade)
        then Some (if Qle_bool (bt_stopLoss trade) lastPrice
                   then bt_stopLoss trade else bt_takeProfit trade)
        else None
      | HOLD => None
      end in
    match finalPrice with
    | Some fp =>
      let pnl := match bt_side trade with
                 | LONG => (fp - bt_price trade) * bt_size trade
                 | _ => (bt_price trade - fp) * bt_size trade
                 end in
      mkBotTrade (bt_date trade) (bt_size trade) (bt_side trade) (bt_price trade)
                 (bt_stopLoss trade) (bt_takeProfit trade) (Some pnl)
    | None => trade
    end
  end.

Definition direction_string (d : Direction) : string :=
  match d with LONG => "LONG" | SHORT => "SHORT" | HOLD => "HOLD" end.

(** [JSON.stringify] of a trade record: an undefined [pnl] is left out. *)
Definition trade_json (t : BotTrade) : Json :=
  JObj ([("date"%string, JStr (bt_date t)); ("size"%string, JNum (bt_size t));
         ("side"%string, JStr (direction_string (bt_side t)));
         ("price"%string, JNum (bt_price t)); ("stopLoss"%string, JNum (bt_stopLoss t));
         ("takeProfit"%string, JNum (bt_takeProfit t))] ++
        match bt_pnl t with Some p => [("pnl"%string, JNum p)] | None => [] end).

(** What one call of [cycle()] depends on: the last close of the
    aggregated market data ([None] when the keys are missing, the fetch
    fails or the data is incomplete, the early returns), the order placed
    without error in this cycle (date, signal and parameters of the
    record), and whether [fs.writeFile] succeeds. *)
Record CycleInput := mkCycleInput {
  ci_lastPrice : option Q;
  ci_order : option (string * Direction * TradeParams);
  ci_write : bool
}.

(** [saveTradesToFile()]: [file] is the parsed ./trades.json ([None]
    when it is missing or does not parse, read as []). *)
Definition saveTradesToFile (file : option (list BotTrade)) (writeOk : bool)
    (allTrades : list BotTrade) : option (list BotTrade) * list BotTrade :=
  let existingTrades := match file with Some ts => ts | None => [] end in
  if writeOk then (Some (existingTrades ++ allTrades), []) else (file, allTrades).

(** [cycle()] on the file and [allTrades], through its [finally]. *)
Definition cycle (ci : CycleInput) (st : option (list BotTrade) * list BotTrade)
    : option (list BotTrade) * list BotTrade :=
  let '(file, allTrades) := st in
  let allTrades1 :=
    match ci_lastPrice ci with
    | Some lastPrice =>
      if (0 <? List.length allTrades)%nat then map (update_trade lastPrice) allTrades
      else allTrades
    | None => allTrades
    end in
  let allTrades2 :=
    match ci_lastPrice ci, ci_order ci with
    | Some lastPrice, Some (date, sig, params) =>
      allTrades1 ++ [mkBotTrade date (size params) sig lastPrice
                                (stopLoss params) (takeProfit params) None]
    | _, _ => allTrades1
    end in
  if (0 <? List.length allTrades2)%nat then saveTradesToFile file (ci_write ci) allTrades2
  else (file, allTrades2).

(** [loop()]: the cycles in order. *)
Fixpoint run_cycles (cis : list CycleInput) (st : option (list BotTrade) * list BotTrade)
    : option (list BotTrade) * list BotTrade :=
  match cis with
  | [] => st
  | ci :: rest => run_cycles rest (cycle ci st)
  end.

End Bot.

(** ** Rounding lemmas *)
Module Rounding.

Lemma floor_half_bounds (y : Q) :
  y - (1#2) < inject_Z (Qfloor (y + (1#2))) /\ inject_Z (Qfloor (y + (1#2))) <= y + (1#2).
Proof.
  pose proof (Qfloor_le (y + (1#2))) as Hle.
  pose proof (Qlt_floor (y + (1#2))) as Hlt.
  rewrite inject_Z_plus in Hlt. change (inject_Z 1) with 1 in Hlt. split; lra.
Qed.

Lemma to_fixed0_bounds (x : Q) :
  x - (1#2) <= Js.to_fixed 0 x /\ Js.to_fixed 0 x <= x + (1#2).
Proof.
  unfold Js.to_fixed. cbn [Z.of_nat Z.pow].
  destruct (Qle_bool 0 x) eqn:E.
  - destruct (floor_half_bounds (x * inject_Z 1)) as [H1 H2].
    set (F := inject_Z (Qfloor (x * inject_Z 1 + (1#2)))) in *.
    assert (E1 : F / inject_Z 1 == F) by (unfold F; field).
    assert (E2 : x * inject_Z 1 == x) by (simpl; ring).
    rewrite E1. rewrite E2 in H1, H2. split; lra.
  - destruct (floor_half_bounds (- x * inject_Z 1)) as [H1 H2].
    set (F := inject_Z (Qfloor (- x * inject_Z 1 + (1#2)))) in *.
    assert (E1 : F / inject_Z 1 == F) by (unfold F; field).
    assert (E2 : - x * inject_Z 1 == - x) by (simpl; ring).
    rewrite E1. rewrite E2 in H1, H2. split; lra.
Qed.


End Rounding.

(** ** RiskManager: inversion lemmas *)
Module RiskFacts.
Import Risk.

Lemma Qle_bool_false (x y : Q) : Qle_bool x y = false -> y < x.
Proof.
  intros H. apply Qnot_le_lt. intros Hle. apply Qle_bool_iff in Hle. congruence.
Qed.

Lemma Qeq_bool_false (x y : Q) : Qeq_bool x y = false -> ~ x == y.
Proof.
  intros H Heq. apply Qeq_bool_iff in Heq. congruence.
Qed.

(** Turn the boolean comparisons produced by the source's tests into
    propositions. *)
Ltac bool_to_prop :=
  repeat match goal with
  | H : Qle_bool _ _ = true |- _ => apply Qle_bool_iff in H
  | H : Qle_bool _ _ = false |- _ => apply Qle_bool_false in H
  | H : Qeq_bool _ _ = true |- _ => apply Qeq_bool_iff in H
  | H : Qeq_bool _ _ = false |- _ => apply Qeq_bool_false in H
  end.

(** Every non-null result passed all the source's checks and is the
    rounding of the computed size and prices. *)
Lemma calc_params_inv rm md sig p :
  calculateTradeParameters rm md sig = Params p ->
  exists lp b d t,
    last_close (md_ohlc md) = Some lp /\
    md_balance md = Some b /\ 0 < b /\
    stop_loss_distance_in_usd sig = Some d /\ 0 < d /\
    take_profit_distance_in_usd sig = Some t /\ 0 < t /\
    marginRequired rm (sizeInUnits rm b lp d) lp <= b /\
    1#10000 <= sizeInUnits rm b lp d /\
    p = mkTradeParams
          (Js.to_fixed 4 (sizeInUnits rm b lp d))
          (Js.to_fixed 0 (match ts_signal sig with LONG => lp - d | _ => lp + d end))
          (Js.to_fixed 0 (match ts_signal sig with LONG => lp + t | _ => lp - t end)).
Proof.
  unfold calculateTradeParameters.
  destruct (last_close (md_ohlc md)) as [lp|]; [|discriminate].
  destruct (md_balance md) as [b|]; [|discriminate]. cbn [Js.falsy].
  destruct (Qeq_bool b 0) eqn:E1; [discriminate|].
  destruct (Qle_bool b 0) eqn:E2; [discriminate|].
  destruct (stop_loss_distance_in_usd sig) as [d|]; [|discriminate]. cbn [Js.falsy].
  destruct (Qeq_bool d 0) eqn:E3; [discriminate|].
  destruct (Qle_bool d 0) eqn:E4; [discriminate|].
  destruct (take_profit_distance_in_usd sig) as [t|]; [|discriminate]. cbn [Js.falsy].
  destruct (Qeq_bool t 0) eqn:E5; [discriminate|].
  destruct (Qle_bool t 0) eqn:E6; [discriminate|].
  destruct (Qle_bool (marginRequired rm (sizeInUnits rm b lp d) lp) b) eqn:E7;
    [|discriminate].
  destruct (Qle_bool (1#10000) (sizeInUnits rm b lp d)) eqn:E8; [|discriminate].
  cbn [negb]. intros Hp. injection Hp as <-. bool_to_prop.
  exists lp, b, d, t. repeat split; assumption.
Qed.


End RiskFacts.

(** ** RiskManager: claims *)
Module RiskClaims.
Import Risk RiskFacts.


(** C3 (code_bug witness): the margin check runs on the size before it
    is rounded. On a one-dollar account (backtest configuration: leverage
    10, marginBuffer 0.01) at last price 60000 with stop distance 1, the
    computed size 0.000158... has buffered margin 0.9595 and passes the
    check; the returned size is [toFixed(4)] of it, 0.0002, whose margin
    [size * lastPrice / leverage] is 1.2 (1.212 with the buffer), above the
    balance 1. *)
Theorem calc_margin_checked_before_rounding :
  marginRequired backtest_rm (sizeInUnits backtest_rm 1 60000 1) 60000 <= 1 /\
  exists p, calculateTradeParameters backtest_rm small_market small_signal = Params p /\
    size p == 2#10000 /\
    1 < size p * 60000 / leverage backtest_rm /\
    1 < marginRequired backtest_rm (size p) 60000.
Proof.
  split; [apply Qle_bool_imp_le; vm_compute; reflexivity|].
  eexists. split; [vm_compute; reflexivity|].
  repeat split; vm_compute; reflexivity.
Qed.



(** C5: with the live bot's configuration (leverage 10, marginBuffer 0.4)
    scenario A is rejected: the buffered margin of the capped size 1.9 is
    (1.9 * 50000 / 10) * 1.4 = 13300, above the balance 10000. *)
Lemma scenarioA_rejected_by_bot_config :
  calculateTradeParameters bot_rm scenarioA_market scenarioA_signal = Null /\
  marginRequired bot_rm (19#10) 50000 == 13300.
Proof. split; vm_compute; reflexivity. Qed.

(** C5 (amended): with the backtest configuration (leverage 10,
    marginBuffer 0.01) scenario A gives rawSize 2, marginCapSize 1.9,
    and the parameters size 1.9, stopLoss 49900, takeProfit 50300; with
    the live bot's configuration (marginBuffer 0.4) it returns null. *)
Theorem scenarioA_outcome_by_config :
  scenarioA_sizes backtest_rm /\
  (exists p, calculateTradeParameters backtest_rm scenarioA_market scenarioA_signal = Params p /\
             size p == 19#10 /\ stopLoss p == 49900 /\ takeProfit p == 50300) /\
  calculateTradeParameters bot_rm scenarioA_market scenarioA_signal = Null.
Proof.
  split; [|split].
  - unfold scenarioA_sizes. repeat split; vm_compute; reflexivity.
  - eexists. split; [vm_compute; reflexivity|]. repeat split; vm_compute; reflexivity.
  - vm_compute. reflexivity.
Qed.

(** C8: with whole-dollar rounding, a LONG at last price 100 with stop and
    target distances 0.3 gets stopLoss 100 and takeProfit 100, both equal
    to the last price rather than below and above it. *)
Lemma tight_distances_round_onto_last_price :
  exists p, calculateTradeParameters backtest_rm tight_market tight_signal = Params p /\
            stopLoss p == 100 /\ takeProfit p == 100.
Proof.
  eexists. split; [vm_compute; reflexivity|]. split; vm_compute; reflexivity.
Qed.

(** C8 (amended): for every non-null result, stopLoss and takeProfit are
    the last price minus/plus the distances (plus/minus for a SHORT)
    rounded to a whole dollar. Hence a stop distance above 0.5 puts stopLoss
    strictly on the loss side of the last price (below for LONG, above for
    SHORT), whatever the target distance; and a target distance above 0.5
    puts takeProfit strictly on the gain side (above for LONG, below for
    SHORT), whatever the stop distance. *)
Theorem calc_prices_strict_sides rm md sig lp d t p :
  last_close (md_ohlc md) = Some lp ->
  stop_loss_distance_in_usd sig = Some d ->
  take_profit_distance_in_usd sig = Some t ->
  calculateTradeParameters rm md sig = Params p ->
  stopLoss p = Js.to_fixed 0 (match ts_signal sig with LONG => lp - d | _ => lp + d end) /\
  takeProfit p = Js.to_fixed 0 (match ts_signal sig with LONG => lp + t | _ => lp - t end) /\
  (1#2 < d -> (ts_signal sig = LONG -> stopLoss p < lp) /\
              (ts_signal sig = SHORT -> lp < stopLoss p)) /\
  (1#2 < t -> (ts_signal sig = LONG -> lp < takeProfit p) /\
              (ts_signal sig = SHORT -> takeProfit p < lp)).
Proof.
  intros Hl Hd Ht Hc.
  destruct (calc_params_inv rm md sig p Hc)
    as (lp' & b & d' & t' & Hl' & _ & _ & Hd' & _ & Ht' & _ & _ & _ & ->).
  rewrite Hl in Hl'. injection Hl' as <-.
  rewrite Hd in Hd'. injection Hd' as <-. rewrite Ht in Ht'. injection Ht' as <-.
  cbn [stopLoss takeProfit].
  split; [reflexivity|]. split; [reflexivity|].
  split; intros Hgt; split; intros Hs; rewrite Hs.
  - destruct (Rounding.to_fixed0_bounds (lp - d)). lra.
  - destruct (Rounding.to_fixed0_bounds (lp + d)). lra.
  - destruct (Rounding.to_fixed0_bounds (lp + t)). lra.
  - destruct (Rounding.to_fixed0_bounds (lp - t)). lra.
Qed.

End RiskClaims.

(** ** BacktestRunner: claims *)
Module BacktestClaims.
Import Risk Backtest.

(** C1 (code_bug witness): a LONG trade with stop 49900 and target 50300
    and a candle with low 49800 and high 50400 touch both levels; the
    second [if] of [_checkExit] overrides the first, so the trade is closed
    at the take-profit 50300 with reason Take-Profit, not at the stop. *)
Theorem checkExit_both_touched_takes_profit :
  checkExit_decision both_touched_trade wide_candle = Some (50300, TakeProfitExit) /\
  paper_open (checkExit (mkPaper 10000 (Some both_touched_trade) [])
                both_touched_trade wide_candle) = None /\
  paper_closed (checkExit (mkPaper 10000 (Some both_touched_trade) [])
                both_touched_trade wide_candle) = [(both_touched_trade, 50300, 60%Z)].
Proof. repeat split; reflexivity. Qed.

(** The loop, once the budget is spent, is the exit-only loop. *)
Lemma run_loop_budget_spent {St} `{BacktestExec St} cfg strat candles idxs ex apiCalls :
  (MAX_API_CALLS cfg <= apiCalls)%nat ->
  run_loop cfg strat candles idxs ex apiCalls = exits_then_break candles idxs ex apiCalls.
Proof.
  intros Hmax. revert ex. induction idxs as [|i rest IH]; intros ex; [reflexivity|].
  cbn [run_loop exits_then_break].
  destruct (getOpenTrade (exit_step ex (nth i candles default_candle))) eqn:E.
  - apply IH.
  - apply Nat.leb_le in Hmax. rewrite Hmax. reflexivity.
Qed.

(** C9: with a budget of zero calls and no warm-up, the run stops at the
    first candle (no position open, budget spent) and never processes the
    second candle of the stream. *)
Lemma zero_budget_run_breaks_early :
  run zero_budget_cfg hold_source two_candles (mkPaper 10000 None []) =
    RunDone (mkPaper 10000 None []) 0 (BrokeAt 0).
Proof. reflexivity. Qed.

(** C9 (amended): once [apiCalls] has reached [MAX_API_CALLS], the loop
    makes no further signal calls or entries and never force-closes a trade:
    it only runs the exit check, candle by candle, while a trade stays open,
    and it breaks, ending the replay early, at the first candle after whose
    exit check no trade is open; a trade still open at the last candle is
    left open. In particular the loop ends early only through that break. *)
Theorem run_loop_after_budget {St} `{BacktestExec St} cfg strat candles idxs ex apiCalls :
  (MAX_API_CALLS cfg <= apiCalls)%nat ->
  run_loop cfg strat candles idxs ex apiCalls = exits_then_break candles idxs ex apiCalls /\
  forall ex' n i,
    run_loop cfg strat candles idxs ex apiCalls = RunDone ex' n (BrokeAt i) ->
    getOpenTrade ex' = None /\ n = apiCalls.
Proof.
  intros Hmax. rewrite (run_loop_budget_spent cfg strat candles idxs ex apiCalls Hmax).
  split; [reflexivity|].
  revert ex. induction idxs as [|j rest IH]; intros ex ex' n i Hr; [discriminate|].
  cbn [exits_then_break] in Hr.
  destruct (getOpenTrade (exit_step ex (nth j candles default_candle))) eqn:E.
  - exact (IH _ _ _ _ Hr).
  - injection Hr as <- <- _. split; [exact E|reflexivity].
Qed.

End BacktestClaims.

(** ** Fill matching: claims *)
Module FillClaims.
Import Fills.

(** C2 (code_bug witness): on scenario B, oldest fill first,
    [buy 1@100, buy 1@101, sell 2@105], the part_001 matcher
    [buildLast10ClosedFromRawFills] produces the two expected trades (the
    lot bought at 100 closed first with pnl 5, then the one bought at 101
    with pnl 4). The matcher of [realizedPnlStatsFromFills]
    (dataHandler.js) closes nothing: its inner loop consumes the queue head
    whatever its side, so the second buy cancels the first lot with no pnl
    (the queue becomes empty), and the sell of 2 is then queued as a short
    lot of 2. It reports zero closes and zero realised pnl. *)
Theorem scenarioB_stats_close_nothing :
  fifo_match scenarioB = ([], [trade100; trade101]) /\
  Fills.buildLast10ClosedFromRawFills 0 (rev scenarioB) 10 = [trade101; trade100] /\
  queue_trace ([], mkStats 0 0 0) scenarioB =
    [[mkPLot "buy" 1 100]; []; [mkPLot "sell" 2 105]] /\
  realizedPnlStatsFromFills scenarioB = mkStats 0 0 0.
Proof. repeat split; vm_compute; reflexivity. Qed.

Lemma pnl_loop_length fuel price size q st size' q' st' :
  pnl_loop fuel price size q st = (size', q', st') -> (List.length q' <= List.length q)%nat.
Proof.
  revert price size q st. induction fuel as [|fuel IH]; intros price size q st Hl.
  - cbn in Hl. injection Hl as _ <- _. lia.
  - destruct q as [|h rest]; cbn [pnl_loop] in Hl.
    + injection Hl as _ <- _. lia.
    + destruct (Qeq_bool size 0); [injection Hl as _ <- _; lia|].
      apply IH in Hl.
      destruct (Qeq_bool _ _) in Hl; cbn [List.length] in *; lia.
Qed.

Lemma sub_abs_sign_zero (x : Q) : x - Qabs x * js_sign x == 0.
Proof.
  unfold js_sign. destruct (Qle_bool x 0) eqn:E1.
  - apply Qle_bool_iff in E1. rewrite (Qabs_neg x E1).
    destruct (Qeq_bool x 0) eqn:E2; [apply Qeq_bool_iff in E2; rewrite E2; reflexivity|].
    ring.
  - apply RiskFacts.Qle_bool_false in E1. rewrite (Qabs_pos x); [ring|lra].
Qed.

(** A lot stays queued after the inner loop only if the fill was used up:
    when a non-zero remainder is left, the queue (of at most one lot) has
    been emptied. *)
Lemma pnl_loop_remainder_empties fuel price size q st size' q' st' :
  (List.length q <= 1)%nat ->
  pnl_loop (S (S fuel)) price size q st = (size', q', st') ->
  Qeq_bool size' 0 = false -> q' = [].
Proof.
  intros Hlen Hl Hs.
  destruct q as [|h [|h2 rest]]; [| |cbn in Hlen; lia].
  - cbn in Hl. injection Hl as _ <- _. reflexivity.
  - cbn [pnl_loop] in Hl.
    destruct (Qeq_bool size 0) eqn:E0; [injection Hl as <- _ _; congruence|].
    set (headQty := if String.eqb (pl_side h) "buy" then pl_size h else - pl_size h) in Hl.
    set (matchQty := Js.math_min (Qabs size) (Qabs headQty)) in Hl.
    destruct (Qeq_bool (Qabs headQty) matchQty) eqn:E1.
    + cbn [pnl_loop] in Hl. destruct fuel; injection Hl as _ <- _; reflexivity.
    + assert (Hm : matchQty = Qabs size).
      { unfold matchQty, Js.math_min in *.
        destruct (Qle_bool (Qabs size) (Qabs headQty)); [reflexivity|].
        rewrite Qeq_bool_refl in E1. discriminate. }
      rewrite Hm in Hl. cbn [pnl_loop] in Hl.
      assert (Hz : Qeq_bool (size - Qabs size * js_sign size) 0 = true).
      { apply Qeq_bool_iff. apply sub_abs_sign_zero. }
      destruct fuel; cbn [pnl_loop] in Hl; rewrite Hz in Hl;
        injection Hl as <- _ _; congruence.
Qed.

Lemma pnl_step_length acc f :
  (List.length (fst acc) <= 1)%nat -> (List.length (fst (pnl_step acc f)) <= 1)%nat.
Proof.
  destruct acc as [q st]. cbn [fst]. intros Hlen. unfold pnl_step.
  destruct (pnl_loop _ _ _ q st) as [[size' q'] st'] eqn:Hl.
  destruct (Qeq_bool size' 0) eqn:Hs; cbn [fst].
  - apply pnl_loop_length in Hl. lia.
  - rewrite (pnl_loop_remainder_empties _ _ _ _ _ _ _ _ Hlen Hl Hs). reflexivity.
Qed.

(** C10: after every fill of every fill stream, the open-lot queue of
    [realizedPnlStatsFromFills] holds at most one lot; the inner loop never
    lengthens it, and a new lot is pushed only when the loop has emptied
    the queue, since every fill consumes the queued lot whatever its side. *)
Theorem realizedPnl_queue_at_most_one :
  (forall fills, Forall (fun q => (List.length q <= 1)%nat)
                        (queue_trace ([], mkStats 0 0 0) fills)) /\
  (forall fuel price size q st size' q' st',
      pnl_loop fuel price size q st = (size', q', st') ->
      (List.length q' <= List.length q)%nat) /\
  (forall fuel price size q st size' q' st',
      (List.length q <= 1)%nat ->
      pnl_loop (S (S fuel)) price size q st = (size', q', st') ->
      Qeq_bool size' 0 = false -> q' = []).
Proof.
  split; [|split; [exact pnl_loop_length | exact pnl_loop_remainder_empties]].
  intros fills.
  assert (Hgen : forall acc, (List.length (fst acc) <= 1)%nat ->
                 Forall (fun q => (List.length q <= 1)%nat) (queue_trace acc fills)).
  { induction fills as [|f rest IH]; intros acc Hacc; cbn [queue_trace]; constructor.
    - apply pnl_step_length. exact Hacc.
    - apply IH. apply pnl_step_length. exact Hacc. }
  apply Hgen. cbn. lia.
Qed.

End FillClaims.

(** ** ExecutionHandler: claims *)
Module ExecClaims.
Import Risk Exec.

(** The polling loop only polls and sleeps 5 s. *)
Lemma monitor_loop_actions v id fuel k e a :
  In a (fst (monitor_loop v id fuel k e)) -> a = GetRecentOrders 5 \/ a = Sleep POLL_INTERVAL_MS.
Proof.
  revert k e. induction fuel as [|fuel IH]; intros k e Hin; [contradiction|].
  cbn [monitor_loop] in Hin.
  destruct (e <? TIMEOUT_MS)%Z; [|contradiction].
  set (e1 := (e + Z.of_N (v_pollLatency v k) + POLL_INTERVAL_MS)%Z) in Hin.
  pose proof (IH (S k) e1) as IHk.
  destruct (monitor_loop v id fuel (S k) e1) as [acts' r'].
  cbn [fst] in IHk.
  destruct (match v_recentOrders v k with
            | Returned (Some orders) => find _ orders | _ => None end) as [o|];
    [destruct (vo_isFilled o)|]; cbn [fst In] in Hin;
    intuition congruence.
Qed.

(** Polls happen only while less than 60 s have elapsed, at least 5 s
    apart, so at most 12 of them run. *)
Lemma monitor_loop_poll_bound v id fuel k e :
  (5000 * Z.of_nat k <= e)%Z ->
  (poll_count (fst (monitor_loop v id fuel k e)) <= 12 - k)%nat.
Proof.
  revert k e. induction fuel as [|fuel IH]; intros k e He; cbn [monitor_loop]; [cbn; lia|].
  destruct (e <? TIMEOUT_MS)%Z eqn:Et; [|cbn; lia].
  apply Z.ltb_lt in Et. unfold TIMEOUT_MS in Et.
  set (e1 := (e + Z.of_N (v_pollLatency v k) + POLL_INTERVAL_MS)%Z).
  assert (He1 : (5000 * Z.of_nat (S k) <= e1)%Z) by (unfold e1, POLL_INTERVAL_MS; lia).
  pose proof (IH (S k) e1 He1) as IHk.
  destruct (monitor_loop v id fuel (S k) e1) as [acts' r'].
  cbn [fst] in IHk.
  destruct (match v_recentOrders v k with
            | Returned (Some orders) => find _ orders | _ => None end) as [o|];
    [destruct (vo_isFilled o)|]; cbn [fst poll_count]; lia.
Qed.

Lemma monitor_loop_filled v id fuel k e o :
  snd (monitor_loop v id fuel k e) = Some o -> vo_isFilled o = true.
Proof.
  revert k e. induction fuel as [|fuel IH]; intros k e Hs; [discriminate|].
  cbn [monitor_loop] in Hs.
  destruct (e <? TIMEOUT_MS)%Z; [|discriminate].
  set (e1 := (e + Z.of_N (v_pollLatency v k) + POLL_INTERVAL_MS)%Z) in Hs.
  pose proof (IH (S k) e1) as IHk.
  destruct (monitor_loop v id fuel (S k) e1) as [acts' r'].
  cbn [snd] in IHk.
  destruct (match v_recentOrders v k with
            | Returned (Some orders) => find _ orders | _ => None end) as [o'|];
    [destruct (vo_isFilled o') eqn:Ef|]; cbn [snd] in Hs; try (apply IHk; exact Hs).
  injection Hs as <-. exact Ef.
Qed.

Lemma monitor_no_exit v id a :
  In a (fst (monitorOrderFill v id)) -> is_exit_action a = false.
Proof.
  intros Hin. destruct (monitor_loop_actions v id _ _ _ a Hin) as [-> | ->]; reflexivity.
Qed.

Lemma monitor_no_batches v id : batches (fst (monitorOrderFill v id)) = [].
Proof.
  remember (fst (monitorOrderFill v id)) as acts eqn:Ha.
  assert (Hall : forall a, In a acts -> a = GetRecentOrders 5 \/ a = Sleep POLL_INTERVAL_MS).
  { intros a Hin. subst acts. exact (monitor_loop_actions v id _ _ _ a Hin). }
  clear Ha. induction acts as [|a rest IH]; [reflexivity|].
  cbn [batches flat_map].
  destruct (Hall a (or_introl eq_refl)) as [-> | ->]; cbn [app];
    apply IH; intros b Hb; apply Hall; right; exact Hb.
Qed.

(** C6: with a LONG entry and a stop at 50, the stop-limit order of the
    batch gets limit price [Math.round(50 * 0.99) = 50], equal to its stop
    price, instead of a limit 1% through the stop (49.5). *)
Lemma low_stop_limit_not_offset :
  exists stop tp,
    batches (fst (placeOrder filling_venue LONG "PF_XBTUSD" low_stop_params)) = [[stop; tp]] /\
    o_stopPrice stop = Some 50 /\ o_limitPrice stop = Some 50.
Proof. eexists. eexists. split; [vm_compute; reflexivity | split; reflexivity]. Qed.

(** C6 (amended): once the entry order is accepted and reported filled,
    [placeOrder] has sent the entry order and submits exactly one batch of
    exactly two reduce-only orders on the side opposite the entry, both of
    the entry order's size [params.size]: a stop order ('stp') with stop
    price [stopLoss] and limit price [Math.round(stopLoss * 0.99)] for a
    sell ([* 1.01] for a buy), i.e. 1% through the stop rounded to a whole
    price, and a limit order ('lmt') at [takeProfit]. *)
Theorem placeOrder_exit_batch v signal pair p id o :
  entry_order_id v = Some id ->
  snd (monitorOrderFill v id) = Some o ->
  hd_error (fst (placeOrder v signal pair p)) = Some (SendOrder (entryOrder signal pair p)) /\
  o_side (entryOrder signal pair p) <> closeSide signal /\
  batches (fst (placeOrder v signal pair p)) =
    [[mkOrder (Some "send"%string) (Some "stop-loss"%string) "stp" pair (closeSide signal) (size p)
        (Some (match signal with
               | LONG => Js.math_round (stopLoss p * (1 - (1#100)))
               | _ => Js.math_round (stopLoss p * (1 + (1#100))) end))
        (Some (stopLoss p)) true;
      mkOrder (Some "send"%string) (Some "take-profit"%string) "lmt" pair (closeSide signal) (size p)
        (Some (takeProfit p)) None true]].
Proof.
  intros Hid Hf.
  pose proof (monitor_no_batches v id) as Hnb.
  unfold placeOrder. rewrite Hid.
  destruct (monitorOrderFill v id) as [polls filled]. cbn [snd fst] in *. subst filled.
  cbn [placeExitOrders]. cbn [fst hd_error].
  split; [reflexivity|]. split; [destruct signal; cbn; discriminate|].
  cbn [batches flat_map]. fold (batches (polls ++ [BatchOrder (exitBatch signal pair (size p) (stopLoss p) (takeProfit p))])).
  unfold batches. rewrite flat_map_app. fold (batches polls). rewrite Hnb.
  cbn. unfold exitBatch, stopLimitPrice, stopSlippagePercent.
  destruct signal; reflexivity.
Qed.

(** C7: when the entry order fails or the fill is not confirmed before
    the 60 s budget runs out, no stop-loss or take-profit order is placed
    in that run of [placeOrder]; the run polls the recent orders at most 12
    times (the polls are 5 s apart: [monitor_loop_actions]). *)
Theorem placeOrder_no_exit_without_fill v signal pair p :
  (entry_order_id v = None \/
   exists id, entry_order_id v = Some id /\ snd (monitorOrderFill v id) = None) ->
  (forall a, In a (fst (placeOrder v signal pair p)) -> is_exit_action a = false) /\
  (poll_count (fst (placeOrder v signal pair p)) <= 12)%nat.
Proof.
  intros Hfail.
  assert (Hno : forall a, In a (fst (placeOrder v signal pair p)) -> is_exit_action a = false).
  { intros a Hin. unfold placeOrder in Hin.
    destruct Hfail as [Hn | (id & Hid & Hm)].
    - rewrite Hn in Hin. destruct Hin as [<- | []]. reflexivity.
    - rewrite Hid in Hin. pose proof (monitor_no_exit v id a) as Hma.
      destruct (monitorOrderFill v id) as [polls filled]. cbn [snd fst] in *. subst filled.
      destruct Hin as [<- | Hin]; [reflexivity | exact (Hma Hin)]. }
  split; [exact Hno|].
  unfold placeOrder. destruct Hfail as [Hn | (id & Hid & Hm)].
  - rewrite Hn. cbn. lia.
  - rewrite Hid.
    pose proof (monitor_loop_poll_bound v id monitor_fuel 0 0 (Z.le_refl _)) as Hb.
    fold (monitorOrderFill v id) in Hb.
    destruct (monitorOrderFill v id) as [polls filled]. cbn [fst snd] in *. subst filled.
    cbn [fst poll_count]. lia.
Qed.

End ExecClaims.

(** ** Witnesses: the theorems above at concrete inputs *)
Module Witnesses.
Import Risk Backtest Fills Exec RiskClaims BacktestClaims FillClaims ExecClaims.



Lemma calc_prices_strict_sides_witness :
  exists p, calculateTradeParameters backtest_rm scenarioA_market scenarioA_signal = Params p /\
    (stopLoss p = Js.to_fixed 0 (50000 - 100) /\
     takeProfit p = Js.to_fixed 0 (50000 + 300) /\
     (1#2 < 100 -> (LONG = LONG -> stopLoss p < 50000) /\
                   (LONG = SHORT -> 50000 < stopLoss p)) /\
     (1#2 < 300 -> (LONG = LONG -> 50000 < takeProfit p) /\
                   (LONG = SHORT -> takeProfit p < 50000))).
Proof.
  eexists. split; [vm_compute; reflexivity|].
  apply (calc_prices_strict_sides backtest_rm scenarioA_market scenarioA_signal 50000 100 300);
    [reflexivity | reflexivity | reflexivity | vm_compute; reflexivity].
Defined.

Lemma run_loop_after_budget_witness :
  (MAX_API_CALLS zero_budget_cfg <= 0)%nat /\
  (run_loop zero_budget_cfg hold_source two_candles [0; 1]%nat (mkPaper 10000 None []) 0%nat =
     exits_then_break two_candles [0; 1]%nat (mkPaper 10000 None []) 0%nat /\
   forall ex' n i,
     run_loop zero_budget_cfg hold_source two_candles [0; 1]%nat (mkPaper 10000 None []) 0%nat =
       RunDone ex' n (BrokeAt i) ->
     getOpenTrade ex' = None /\ n = 0%nat).
Proof.
  split; [cbn; lia|].
  apply (run_loop_after_budget zero_budget_cfg hold_source two_candles [0; 1]%nat
           (mkPaper 10000 None []) 0%nat).
  cbn. lia.
Defined.

Lemma placeOrder_exit_batch_witness :
  entry_order_id filling_venue = Some (Some "e1"%string) /\
  snd (monitorOrderFill filling_venue (Some "e1"%string)) = Some (mkVenueOrder (Some "e1"%string) true 50000) /\
  (hd_error (fst (placeOrder filling_venue SHORT "PF_XBTUSD" (mkTradeParams 1 50100 49700))) =
     Some (SendOrder (entryOrder SHORT "PF_XBTUSD" (mkTradeParams 1 50100 49700))) /\
   o_side (entryOrder SHORT "PF_XBTUSD" (mkTradeParams 1 50100 49700)) <> closeSide SHORT /\
   batches (fst (placeOrder filling_venue SHORT "PF_XBTUSD" (mkTradeParams 1 50100 49700))) =
    [[mkOrder (Some "send"%string) (Some "stop-loss"%string) "stp" "PF_XBTUSD" (closeSide SHORT) 1
        (Some (Js.math_round (50100 * (1 + (1#100))))) (Some 50100) true;
      mkOrder (Some "send"%string) (Some "take-profit"%string) "lmt" "PF_XBTUSD" (closeSide SHORT) 1
        (Some 49700) None true]]).
Proof.
  split; [reflexivity|]. split; [vm_compute; reflexivity|].
  apply (placeOrder_exit_batch filling_venue SHORT "PF_XBTUSD" (mkTradeParams 1 50100 49700)
           (Some "e1"%string) (mkVenueOrder (Some "e1"%string) true 50000));
    [reflexivity | vm_compute; reflexivity].
Defined.

Lemma placeOrder_no_exit_without_fill_witness :
  (exists id, entry_order_id never_filling_venue = Some id /\
              snd (monitorOrderFill never_filling_venue id) = None) /\
  ((forall a, In a (fst (placeOrder never_filling_venue LONG "PF_XBTUSD" scenarioA_params)) ->
              is_exit_action a = false) /\
   (poll_count (fst (placeOrder never_filling_venue LONG "PF_XBTUSD" scenarioA_params)) <= 12)%nat).
Proof.
  assert (H : exists id, entry_order_id never_filling_venue = Some id /\
                         snd (monitorOrderFill never_filling_venue id) = None).
  { exists (Some "e1"%string). split; [reflexivity | vm_compute; reflexivity]. }
  split; [exact H|].
  apply (placeOrder_no_exit_without_fill never_filling_venue LONG "PF_XBTUSD" scenarioA_params).
  right. exact H.
Defined.

Lemma realizedPnl_queue_at_most_one_witness :
  Forall (fun q => (List.length q <= 1)%nat) (queue_trace ([], mkStats 0 0 0) scenarioB) /\
  [mkPLot "buy" 1 100] <> [] /\
  (Qeq_bool (-1) 0 = false /\
   pnl_loop 2 105 (-2) [mkPLot "buy" 1 100] (mkStats 0 0 0) = (-1, [], mkStats 500 1 1) /\
   ([] : list PLot) = []).
Proof.
  split; [apply (proj1 realizedPnl_queue_at_most_one)|].
  split; [discriminate|].
  split; [reflexivity|]. split; [vm_compute; reflexivity|].
  apply (proj2 (proj2 realizedPnl_queue_at_most_one) 0%nat 105 (-2) [mkPLot "buy" 1 100]
           (mkStats 0 0 0) (-1) [] (mkStats 500 1 1));
    [cbn; lia | vm_compute; reflexivity | reflexivity].
Defined.

End Witnesses.


Module ExtraFacts.
Import Risk Backtest Indicators RiskFacts.

Lemma in_firstn_l {A} n (l : list A) x : In x (firstn n l) -> In x l.
Proof. intros H. rewrite <- (firstn_skipn n l). apply in_or_app. left. exact H. Qed.

Lemma in_skipn_l {A} n (l : list A) x : In x (skipn n l) -> In x l.
Proof. intros H. rewrite <- (firstn_skipn n l). apply in_or_app. right. exact H. Qed.

Lemma js_slice_suffix {A} (l : list A) (p : nat) :
  js_slice l (- Z.of_nat p) (Z.of_nat (List.length l)) =
  if (p =? 0)%nat then l else skipn (List.length l - p) l.
Proof.
  unfold js_slice. cbv zeta.
  destruct (Z.ltb_spec (- Z.of_nat p) 0) as [Hn|Hn];
  destruct (Z.ltb_spec (Z.of_nat (List.length l)) 0) as [Hm|Hm]; try lia.
  - destruct (Nat.eqb_spec p 0) as [Hp|Hp]; [lia|].
    rewrite Z.min_id.
    replace (Z.to_nat (Z.max (Z.of_nat (List.length l) + - Z.of_nat p) 0))
      with (List.length l - p)%nat by lia.
    replace (Z.to_nat (Z.of_nat (List.length l) - Z.max (Z.of_nat (List.length l) + - Z.of_nat p) 0))
      with (List.length (skipn (List.length l - p) l)) by (rewrite length_skipn; lia).
    apply firstn_all.
  - assert (p = 0)%nat as -> by lia. cbn [Nat.eqb].
    rewrite Z.min_id.
    replace (Z.to_nat (Z.min (- Z.of_nat 0) (Z.of_nat (List.length l)))) with 0%nat by lia.
    replace (Z.to_nat (Z.of_nat (List.length l) - Z.min (- Z.of_nat 0) (Z.of_nat (List.length l))))
      with (List.length l) by lia.
    apply firstn_all.
Qed.

Lemma js_slice_length_le {A} (l : list A) a b :
  (List.length (js_slice l a b) <= List.length l)%nat.
Proof. unfold js_slice. rewrite length_firstn, length_skipn. lia. Qed.

Lemma js_slice_incl {A} (l : list A) a b x : In x (js_slice l a b) -> In x l.
Proof. unfold js_slice. intros H. apply in_firstn_l, in_skipn_l in H. exact H. Qed.

Lemma js_slice_nil {A} a b : js_slice ([] : list A) a b = [].
Proof. unfold js_slice. rewrite skipn_nil, firstn_nil. reflexivity. Qed.

Lemma last_close_none (l : list Candle) : last_close l = None <-> l = [].
Proof.
  induction l as [|c rest IH]; [split; reflexivity|].
  split; [|discriminate].
  destruct rest as [|c' rest']; [discriminate|].
  intros H. cbn [last_close] in H. apply IH in H. discriminate.
Qed.


Lemma math_max_ge_l a b : a <= math_max a b.
Proof. unfold math_max. destruct (Qle_bool a b) eqn:E; bool_to_prop; lra. Qed.

Lemma math_max_ge_r a b : b <= math_max a b.
Proof. unfold math_max. destruct (Qle_bool a b) eqn:E; bool_to_prop; lra. Qed.

Lemma math_min_le_l a b : Js.math_min a b <= a.
Proof. unfold Js.math_min. destruct (Qle_bool a b) eqn:E; bool_to_prop; lra. Qed.

Lemma math_min_le_r a b : Js.math_min a b <= b.
Proof. unfold Js.math_min. destruct (Qle_bool a b) eqn:E; bool_to_prop; lra. Qed.

Lemma true_range_nonneg h l pc : 0 <= true_range h l pc.
Proof.
  unfold true_range. eapply Qle_trans; [apply (Qabs_nonneg (l - pc))|]. apply math_max_ge_r.
Qed.

Lemma tr_list_length ohlc : List.length (tr_list ohlc) = (List.length ohlc - 1)%nat.
Proof.
  induction ohlc as [|c rest IH]; [reflexivity|].
  destruct rest as [|c' rest']; [reflexivity|].
  cbn [tr_list List.length] in *. rewrite IH. lia.
Qed.

Lemma tr_list_nonneg ohlc : Forall (fun x => 0 <= x) (tr_list ohlc).
Proof.
  induction ohlc as [|c rest IH]; [constructor|].
  destruct rest as [|c' rest']; [constructor|].
  cbn [tr_list] in *. constructor; [apply true_range_nonneg | exact IH].
Qed.

Lemma fold_plus_nonneg (l : list Q) a :
  0 <= a -> Forall (fun x => 0 <= x) l -> 0 <= fold_left Qplus l a.
Proof.
  revert a. induction l as [|x rest IH]; intros a Ha Hl; [exact Ha|].
  inversion Hl as [|? ? Hx Hr]; subst. cbn [fold_left]. apply IH; [lra | exact Hr].
Qed.

Lemma div_nonneg (x y : Q) : 0 <= x -> 0 <= y -> 0 <= x / y.
Proof.
  intros Hx Hy. unfold Qdiv. apply Qmult_le_0_compat; [exact Hx|].
  apply Qinv_le_0_compat. exact Hy.
Qed.

Lemma calculateATR_window ohlc period :
  calculateATR ohlc period =
  let w := if (period =? 0)%nat then tr_list ohlc
           else skipn (List.length (tr_list ohlc) - period) (tr_list ohlc) in
  match w with
  | [] => None
  | _ => Some (fold_left Qplus w 0 / inject_Z (Z.of_nat (List.length w)))
  end.
Proof. unfold calculateATR. rewrite js_slice_suffix. reflexivity. Qed.

End ExtraFacts.

Module BacktestExtras.
Import Risk Backtest Indicators Strategy RiskFacts ExtraFacts.

(** [calculateATR] gives NaN (an empty window) exactly when fewer than
    two candles are given, whatever the period. *)
Theorem calculateATR_nan_iff_short ohlc period :
  calculateATR ohlc period = None <-> (List.length ohlc < 2)%nat.
Proof.
  rewrite calculateATR_window. cbv zeta.
  pose proof (tr_list_length ohlc) as Hl.
  destruct (Nat.eqb_spec period 0) as [Hp|Hp].
  - destruct (tr_list ohlc) as [|x r] eqn:E; cbn [List.length] in Hl;
      split; intros H; try discriminate; try reflexivity; lia.
  - destruct (skipn (List.length (tr_list ohlc) - period) (tr_list ohlc)) as [|x r] eqn:E.
    + split; intros _; [|reflexivity].
      assert (Hz : List.length (skipn (List.length (tr_list ohlc) - period) (tr_list ohlc)) = 0%nat)
        by (rewrite E; reflexivity).
      rewrite length_skipn in Hz. lia.
    + split; intros H; [discriminate|].
      assert (Hz : List.length (skipn (List.length (tr_list ohlc) - period) (tr_list ohlc)) <> 0%nat)
        by (rewrite E; discriminate).
      rewrite length_skipn in Hz. lia.
Qed.

(** A number returned by [calculateATR] is never negative. *)
Theorem calculateATR_nonneg ohlc period a :
  calculateATR ohlc period = Some a -> 0 <= a.
Proof.
  rewrite calculateATR_window. cbv zeta.
  set (w := if (period =? 0)%nat then _ else _).
  assert (Hw : Forall (fun x => 0 <= x) w).
  { unfold w. destruct (period =? 0)%nat; [apply tr_list_nonneg|].
    apply Forall_forall. intros x Hx. apply in_skipn_l in Hx.
    exact (proj1 (Forall_forall _ _) (tr_list_nonneg ohlc) x Hx). }
  destruct w as [|x r]; [discriminate|].
  intros H. injection H as <-. apply div_nonneg.
  - inversion Hw; subst. apply fold_plus_nonneg; [lra | assumption].
  - change 0 with (inject_Z 0). rewrite <- Zle_Qle. lia.
Qed.

(** [slice(-0)] keeps the whole array: period 0 averages every true
    range, as the longest period does. *)
Theorem calculateATR_period_zero_whole ohlc :
  calculateATR ohlc 0 = calculateATR ohlc (List.length ohlc).
Proof.
  rewrite !calculateATR_window. cbv zeta. rewrite tr_list_length.
  destruct (Nat.eqb_spec (List.length ohlc) 0) as [E|E]; [reflexivity|].
  replace (List.length ohlc - 1 - List.length ohlc)%nat with 0%nat by lia.
  reflexivity.
Qed.

(** [_printSummary] counts a trade with pnl 0 as a losing trade, and
    winning plus losing trades is the total. *)
Theorem printSummary_counts pnls :
  losingTrades (printSummary pnls) = List.length (filter (fun pnl => Qle_bool pnl 0) pnls) /\
  (winningTrades (printSummary pnls) + losingTrades (printSummary pnls) =
   totalTrades (printSummary pnls))%nat.
Proof.
  cbn [printSummary losingTrades winningTrades totalTrades].
  assert (H : (List.length (filter (fun pnl => negb (Qle_bool pnl 0)) pnls) +
               List.length (filter (fun pnl => Qle_bool pnl 0) pnls) = List.length pnls)%nat).
  { induction pnls as [|x r IH]; [reflexivity|].
    cbn [filter List.length]. destruct (Qle_bool x 0); cbn [negb List.length]; lia. }
  split; lia.
Qed.

Lemma run_loop_calls_bound {St} `{BacktestExec St} cfg strat candles idxs ex a ex' n how :
  (a <= MAX_API_CALLS cfg)%nat ->
  run_loop cfg strat candles idxs ex a = RunDone ex' n how ->
  (n <= MAX_API_CALLS cfg)%nat /\ (n <= a + List.length idxs)%nat.
Proof.
  revert ex a. induction idxs as [|i rest IH]; intros ex a Ha Hr.
  - cbn in Hr. injection Hr as _ <- _. cbn. lia.
  - cbn [run_loop] in Hr.
    destruct (getOpenTrade _) as [t|].
    + destruct (IH _ _ Ha Hr). cbn [List.length]. lia.
    + destruct (Nat.leb_spec (MAX_API_CALLS cfg) a) as [Hm|Hm].
      * injection Hr as _ <- _. cbn [List.length]. lia.
      * destruct (handleSignal _ _ _ _ _ _) as [ex2|]; [|discriminate].
        destruct (IH _ _ Hm Hr). cbn [List.length]. lia.
Qed.

(** The number of model calls a finished run reports never exceeds
    [MAX_API_CALLS] nor the number of candles after the warm-up. *)
Theorem run_api_calls_bounded {St} `{BacktestExec St} cfg strat allCandles ex0 ex' n how :
  run cfg strat allCandles ex0 = RunDone ex' n how ->
  (n <= MAX_API_CALLS cfg)%nat /\
  (n <= List.length (filterByDate allCandles) - WARMUP_PERIOD cfg)%nat.
Proof.
  unfold run, run_filtered.
  destruct (Nat.ltb _ _); [discriminate|].
  intros Hr. apply run_loop_calls_bound in Hr; [|lia].
  rewrite length_seq in Hr. lia.
Qed.

(** [_checkExit] closes only LONG or SHORT trades, and always at one of
    the trade's own levels: at the stop with reason stop-loss or at the
    target with reason take-profit. *)
Theorem checkExit_levels t candle p r :
  checkExit_decision t candle = Some (p, r) ->
  t_signal t <> HOLD /\
  ((r = StopLossExit /\ p = t_stopLoss t) \/ (r = TakeProfitExit /\ p = t_takeProfit t)).
Proof.
  unfold checkExit_decision. intros Hd.
  destruct (t_signal t); [| |discriminate Hd]; (split; [discriminate|]).
  all: destruct (Qle_bool _ _); [injection Hd as <- <-; right; split; reflexivity|].
  all: destruct (Qle_bool _ _); [injection Hd as <- <-; left; split; reflexivity|discriminate Hd].
Qed.

End BacktestExtras.


Module ExtraFacts2.
Import Risk RiskFacts.

Lemma Qabs_pos_eq q : 0 < q -> Qabs q = q /\ Qabs (- q) = q.
Proof.
  destruct q as [n d]. unfold Qlt. cbn. intros H. split; f_equal; lia.
Qed.

Lemma Qle_bool_true x y : x <= y -> Qle_bool x y = true.
Proof. apply Qle_bool_iff. Qed.

Lemma Qle_bool_false' x y : y < x -> Qle_bool x y = false.
Proof.
  intros H. destruct (Qle_bool x y) eqn:E; [apply Qle_bool_iff in E; lra|reflexivity].
Qed.

Lemma Qeq_bool_true x y : x == y -> Qeq_bool x y = true.
Proof. apply Qeq_bool_iff. Qed.

Lemma Qeq_bool_false' x y : ~ x == y -> Qeq_bool x y = false.
Proof.
  intros H. destruct (Qeq_bool x y) eqn:E; [apply Qeq_bool_iff in E; contradiction|reflexivity].
Qed.




End ExtraFacts2.

Module RiskExtras.
Import Risk RiskFacts ExtraFacts ExtraFacts2 JsonData Exec DataH.



(** A failed or malformed balance query blocks every trade: the 0 that
    [fetchAccountBalance] returns makes [calculateTradeParameters] return
    null on any non-empty market. *)
Theorem fetch_failure_blocks_sizing rm ohlc sig reply :
  ohlc <> [] ->
  (reply = Thrown \/
   exists data, reply = Returned data /\ forall m, available_margin data <> Some (JNum m)) ->
  calculateTradeParameters rm (mkMarketData (Some (fetchAccountBalance reply)) ohlc) sig = Null.
Proof.
  intros Hne Hr.
  assert (Hz : fetchAccountBalance reply = 0).
  { destruct Hr as [->|(data & -> & Hm)]; [reflexivity|].
    cbn [fetchAccountBalance]. destruct (available_margin data) as [j|]; [|reflexivity].
    destruct j; try reflexivity. exfalso. eapply Hm. reflexivity. }
  rewrite Hz. unfold calculateTradeParameters. cbn [md_ohlc md_balance].
  destruct (last_close ohlc) eqn:E.
  - reflexivity.
  - apply last_close_none in E. contradiction.
Qed.

End RiskExtras.

Module FillExtras.
Import Fills RiskFacts ExtraFacts ExtraFacts2.

(** A buy and a sell of the same quantity (in either order) close one
    trade whose pnl is [(exit - entry) * q * entry], whatever the side
    of the opening fill, and it counts as a win exactly when that pnl is
    positive. *)
Theorem realizedPnl_round_trip s1 s2 q p1 p2 t1 t2 :
  ((s1, s2) = ("buy"%string, "sell"%string) \/ (s1, s2) = ("sell"%string, "buy"%string)) ->
  0 < q ->
  let st := realizedPnlStatsFromFills [mkFill s1 q p1 t1; mkFill s2 q p2 t2] in
  realisedPnL st == (p2 - p1) * q * p1 /\ totalCloses st = 1%nat /\
  (winCount st = 1%nat <-> 0 < (p2 - p1) * q * p1).
Proof.
  intros Hs Hq. cbv zeta.
  destruct (Qabs_pos_eq q Hq) as [A1 A2].
  destruct Hs as [Hs|Hs]; injection Hs as -> ->;
    unfold realizedPnlStatsFromFills, pnl_step;
    cbn [fold_left String.eqb Ascii.eqb Bool.eqb f_side f_size f_price List.length pnl_loop].
  - rewrite (Qeq_bool_false' q 0) by lra. cbn [pnl_loop app].
    rewrite (Qle_bool_false' q 0) by lra.
    cbn [pl_side pl_size pl_price String.eqb Ascii.eqb Bool.eqb List.length pnl_loop].
    rewrite !A1, !A2, (Qeq_bool_false' (-q) 0) by lra.
    unfold Js.math_min, js_sign.
    rewrite (Qle_bool_true q q), (Qeq_bool_true q q), (Qle_bool_true (-q) 0),
      (Qle_bool_false' q 0), (Qeq_bool_false' (-q) 0) by lra.
    cbn [negb Bool.eqb pnl_loop].
    rewrite (Qeq_bool_true (- q - q * -1) 0) by ring.
    cbn [snd realisedPnL winCount totalCloses].
    destruct (Qle_bool ((p2 - p1) * q * p1) 0) eqn:E; bool_to_prop; cbn [negb];
      (split; [ring|split; [reflexivity|]]).
    + split; intros H; [discriminate H|lra].
    + split; intros; [assumption|reflexivity].
  - rewrite (Qeq_bool_false' (-q) 0) by lra. cbn [pnl_loop app].
    rewrite (Qle_bool_true (-q) 0) by lra.
    cbn [pl_side pl_size pl_price String.eqb Ascii.eqb Bool.eqb List.length pnl_loop].
    rewrite !A2, !A1, (Qeq_bool_false' q 0) by lra.
    unfold Js.math_min, js_sign.
    rewrite (Qle_bool_true q q), (Qeq_bool_true q q), (Qle_bool_true (-q) 0),
      (Qle_bool_false' q 0) by lra.
    cbn [negb Bool.eqb pnl_loop].
    rewrite (Qeq_bool_true (q - q * 1) 0) by ring.
    cbn [snd realisedPnL winCount totalCloses].
    destruct (Qle_bool ((p2 - p1) * q * p1) 0) eqn:E; bool_to_prop; cbn [negb];
      (split; [ring|split; [reflexivity|]]).
    + split; intros H; [discriminate H|lra].
    + split; intros; [assumption|reflexivity].
Qed.


Lemma fifo_loop_done fuel f side rem queue closed :
  Qle_bool rem 0 = true -> fifo_loop fuel f side rem queue closed = (rem, queue, closed).
Proof.
  intros H. destruct fuel; [reflexivity|]. cbn [fifo_loop].
  destruct queue; [reflexivity|]. rewrite H. reflexivity.
Qed.

Lemma fifo_loop_side fuel f side rem queue closed s0 r q' c' :
  (List.length queue < fuel)%nat ->
  Forall (fun l => l_side l = s0) queue -> dir_eqb s0 side = false ->
  fifo_loop fuel f side rem queue closed = (r, q', c') ->
  Forall (fun l => l_side l = s0) q' /\ (Qle_bool r 0 = true \/ q' = []).
Proof.
  revert rem queue closed. induction fuel as [|fuel IH]; intros rem queue closed Hf Hq Hd Hl;
    [cbn in Hf; lia|].
  destruct queue as [|o rest]; cbn [fifo_loop] in Hl.
  - injection Hl as <- <- <-. split; [constructor|right; reflexivity].
  - inversion Hq as [|? ? Ho Hrest]; subst.
    rewrite Hd in Hl. cbn [negb andb] in Hl.
    destruct (Qle_bool rem 0) eqn:Er; cbn [negb andb] in Hl.
    + injection Hl as <- <- <-. split; [assumption|left; exact Er].
    + set (m := Js.math_min rem (l_size o)) in Hl.
      destruct (Qle_bool (l_size o - m) 0) eqn:Es; cbn [negb] in Hl.
      * cbn [List.length] in Hf. eapply IH; [|exact Hrest|exact Hd|exact Hl]; lia.
      * assert (Hm : Qle_bool (rem - m) 0 = true).
        { apply Qle_bool_iff. unfold m, Js.math_min in *.
          destruct (Qle_bool rem (l_size o)) eqn:E2; bool_to_prop; lra. }
        rewrite fifo_loop_done in Hl by exact Hm. injection Hl as <- <- <-.
        split; [constructor; [reflexivity|exact Hrest]|left; exact Hm].
Qed.

Lemma dir_eqb_true a b : dir_eqb a b = true -> a = b.
Proof. destruct a, b; cbn; congruence. Qed.

Lemma last_lot_in queue l : last_lot queue = Some l -> In l queue.
Proof.
  unfold last_lot. intros H. apply in_rev.
  destruct (rev queue); [discriminate|]. injection H as <-. left; reflexivity.
Qed.

Lemma Forall_app_single {A} (P : A -> Prop) l x : Forall P l -> P x -> Forall P (l ++ [x]).
Proof. intros H1 H2. apply Forall_app. split; [exact H1|constructor; [exact H2|constructor]]. Qed.

Lemma fifo_step_side st f :
  (exists s, Forall (fun l => l_side l = s) (fst st)) ->
  exists s, Forall (fun l => l_side l = s) (fst (fifo_step st f)).
Proof.
  destruct st as [queue closed]. cbn [fst]. intros [s0 Hq].
  unfold fifo_step.
  set (side := if String.eqb (f_side f) "buy" then LONG else SHORT).
  destruct (last_lot queue) as [l|] eqn:El.
  - assert (Hl : l_side l = s0) by (rewrite Forall_forall in Hq; apply Hq, last_lot_in, El).
    destruct (dir_eqb (l_side l) side) eqn:Ed.
    + apply dir_eqb_true in Ed. exists side. cbn [fst].
      apply Forall_app_single; [|reflexivity].
      rewrite Forall_forall in *. intros x Hx. rewrite Hq by exact Hx. congruence.
    + destruct (fifo_loop (S (List.length queue)) f side (f_size f) queue closed)
        as [[r q'] c'] eqn:Ef.
      rewrite Hl in Ed.
      destruct (fifo_loop_side _ _ _ _ _ _ s0 r q' c' (Nat.lt_succ_diag_r _) Hq Ed Ef)
        as [Hq' Hr].
      destruct (Qle_bool r 0) eqn:Er; cbn [negb fst].
      * exists s0. exact Hq'.
      * destruct Hr as [Hr| ->]; [congruence|].
        exists side. constructor; [reflexivity|constructor].
  - exists side. cbn [fst].
    assert (Hn : queue = []).
    { unfold last_lot in El. destruct (rev queue) eqn:Er; [|discriminate].
      apply (f_equal (@rev Lot)) in Er. rewrite rev_involutive in Er. exact Er. }
    subst queue. constructor; [reflexivity|constructor].
Qed.

(** The open-lot queue of the FIFO matcher never holds lots of both
    sides: after any sequence of fills all queued lots share one side. *)
Theorem fifo_queue_one_side fills :
  exists s, Forall (fun l => l_side l = s) (fst (fifo_match fills)).
Proof.
  unfold fifo_match.
  assert (H : exists s, Forall (fun l => l_side l = s) (fst (([] : list Lot), ([] : list ClosedTrade))))
    by (exists LONG; constructor).
  revert H. generalize (([] : list Lot), ([] : list ClosedTrade)).
  induction fills as [|f rest IH]; intros st H; cbn [fold_left]; [exact H|].
  apply IH, fifo_step_side, H.
Qed.

Lemma fifo_loop_times (s : Z) fuel f side rem queue closed r q' c' :
  (s <= f_fillTime f)%Z ->
  Forall (fun l => s <= l_entryTime l)%Z queue ->
  Forall (fun t => s <= ct_entryTime t /\ s <= ct_exitTime t)%Z closed ->
  fifo_loop fuel f side rem queue closed = (r, q', c') ->
  Forall (fun l => s <= l_entryTime l)%Z q' /\
  Forall (fun t => s <= ct_entryTime t /\ s <= ct_exitTime t)%Z c'.
Proof.
  intros Hf. revert rem queue closed.
  induction fuel as [|fuel IH]; intros rem queue closed Hq Hc Hl; cbn [fifo_loop] in Hl.
  - injection Hl as <- <- <-. split; assumption.
  - destruct queue as [|o rest].
    + injection Hl as <- <- <-. split; assumption.
    + inversion Hq as [|? ? Ho Hrest]; subst.
      destruct (negb (Qle_bool rem 0) && negb (dir_eqb (l_side o) side)).
      * eapply IH; [| |exact Hl].
        -- destruct (negb _); [constructor; [exact Ho|exact Hrest]|exact Hrest].
        -- apply Forall_app_single; [exact Hc|]. cbn. split; assumption.
      * injection Hl as <- <- <-. split; assumption.
Qed.

Lemma fifo_step_times (s : Z) st f :
  (s <= f_fillTime f)%Z ->
  Forall (fun l => s <= l_entryTime l)%Z (fst st) ->
  Forall (fun t => s <= ct_entryTime t /\ s <= ct_exitTime t)%Z (snd st) ->
  Forall (fun l => s <= l_entryTime l)%Z (fst (fifo_step st f)) /\
  Forall (fun t => s <= ct_entryTime t /\ s <= ct_exitTime t)%Z (snd (fifo_step st f)).
Proof.
  destruct st as [queue closed]. cbn [fst snd]. intros Hf Hq Hc.
  unfold fifo_step.
  set (side := if String.eqb (f_side f) "buy" then LONG else SHORT).
  destruct (last_lot queue) as [l|].
  - destruct (dir_eqb (l_side l) side).
    + cbn [fst snd]. split; [apply Forall_app_single; [exact Hq|exact Hf]|exact Hc].
    + destruct (fifo_loop (S (List.length queue)) f side (f_size f) queue closed)
        as [[r q'] c'] eqn:Ef.
      destruct (fifo_loop_times s _ _ _ _ _ _ _ _ _ Hf Hq Hc Ef) as [Hq' Hc'].
      destruct (negb (Qle_bool r 0)); cbn [fst snd]; split; try assumption.
      apply Forall_app_single; [exact Hq'|exact Hf].
  - cbn [fst snd]. split; [apply Forall_app_single; [exact Hq|exact Hf]|exact Hc].
Qed.

(** Every trade rebuilt from the raw fills was opened and closed at or
    after [BOT_START_TIME]: fills before it take no part in the matching. *)
Theorem buildLast10_times_after_start s raw n t :
  In t (buildLast10ClosedFromRawFills s raw n) ->
  (s <= ct_entryTime t /\ s <= ct_exitTime t)%Z.
Proof.
  unfold buildLast10ClosedFromRawFills.
  destruct raw as [|f0 raw0]; [contradiction|].
  set (eligible := filter _ (f0 :: raw0)).
  assert (He : Forall (fun f => s <= f_fillTime f)%Z (rev eligible)).
  { apply Forall_forall. intros f Hf. apply in_rev in Hf.
    apply filter_In in Hf. apply Z.leb_le, Hf. }
  destruct eligible as [|e1 es] eqn:Eel; [contradiction|].
  intros Hin. apply in_rev, in_skipn_l in Hin.
  unfold fifo_match in Hin.
  assert (Hinv : forall fs st,
    Forall (fun f => s <= f_fillTime f)%Z fs ->
    Forall (fun l => s <= l_entryTime l)%Z (fst st) ->
    Forall (fun t => s <= ct_entryTime t /\ s <= ct_exitTime t)%Z (snd st) ->
    Forall (fun t => s <= ct_entryTime t /\ s <= ct_exitTime t)%Z (snd (fold_left fifo_step fs st))).
  { induction fs as [|f fs IH]; intros st Hfs Hq Hc; cbn [fold_left]; [exact Hc|].
    inversion Hfs; subst.
    destruct (fifo_step_times s st f) as [Hq' Hc']; try assumption.
    apply IH; assumption. }
  specialize (Hinv _ ([], []) He (Forall_nil _) (Forall_nil _)).
  rewrite Forall_forall in Hinv. exact (Hinv t Hin).
Qed.

(** With [n >= 1] at most [n] trades are returned ([slice(-n)]). *)
Theorem buildLast10_at_most_n s raw n :
  (1 <= n)%nat -> (List.length (buildLast10ClosedFromRawFills s raw n) <= n)%nat.
Proof.
  intros _. unfold buildLast10ClosedFromRawFills.
  destruct raw; [cbn; lia|].
  destruct (filter _ _); [cbn; lia|].
  unfold slice_last. rewrite length_rev, length_skipn. lia.
Qed.

Lemma pnl_loop_wins fuel price size q st size' q' st' :
  (winCount st <= totalCloses st)%nat ->
  pnl_loop fuel price size q st = (size', q', st') ->
  (winCount st' <= totalCloses st')%nat.
Proof.
  revert size q st. induction fuel as [|fuel IH]; intros size q st Hw Hl; cbn [pnl_loop] in Hl.
  - injection Hl as _ _ <-. exact Hw.
  - destruct q as [|h rest]; [injection Hl as _ _ <-; exact Hw|].
    destruct (Qeq_bool size 0); [injection Hl as _ _ <-; exact Hw|].
    eapply IH; [|exact Hl].
    destruct (Bool.eqb _ _); [exact Hw|]. cbn [winCount totalCloses].
    destruct (negb _); lia.
Qed.

(** Wins never outnumber closes in the realized-pnl statistics. *)
Theorem realizedPnl_wins_le_closes fills :
  (winCount (realizedPnlStatsFromFills fills) <= totalCloses (realizedPnlStatsFromFills fills))%nat.
Proof.
  unfold realizedPnlStatsFromFills.
  assert (H : forall fs acc, (winCount (snd acc) <= totalCloses (snd acc))%nat ->
    (winCount (snd (fold_left pnl_step fs acc)) <= totalCloses (snd (fold_left pnl_step fs acc)))%nat).
  { induction fs as [|f fs IH]; intros [queue st] Hw; cbn [fold_left]; [exact Hw|].
    apply IH. unfold pnl_step.
    destruct (pnl_loop _ _ _ _ _) as [[size' q'] st'] eqn:El.
    apply pnl_loop_wins in El; [|exact Hw].
    destruct (Qeq_bool size' 0); exact El. }
  apply H. cbn. lia.
Qed.
End FillExtras.

Module ExecExtras.
Import Exec.

(** The order [monitorOrderFill] reports is one the venue lists as filled
    and whose [order_id] is the one asked for. *)
Theorem monitorOrderFill_match v id o :
  snd (monitorOrderFill v id) = Some o ->
  vo_isFilled o = true /\ opt_string_eqb (vo_orderId o) id = true.
Proof.
  unfold monitorOrderFill. generalize 0%nat 0%Z. generalize monitor_fuel as fuel.
  induction fuel as [|fuel IH]; intros k e Hs; [discriminate|].
  cbn [monitor_loop] in Hs.
  destruct (e <? TIMEOUT_MS)%Z; [|discriminate].
  set (rest := monitor_loop v id fuel (S k) _) in Hs.
  destruct (match v_recentOrders v k with
            | Returned (Some orders) => find (fun o => opt_string_eqb (vo_orderId o) id) orders
            | Returned None => None
            | Thrown => None
            end) as [o'|] eqn:Ef.
  - destruct (vo_isFilled o') eqn:Ei.
    + cbn [snd] in Hs. injection Hs as <-. split; [exact Ei|].
      destruct (v_recentOrders v k) as [|[orders|]]; try discriminate.
      apply find_some in Ef. apply Ef.
    + destruct rest as [acts r] eqn:Er. cbn [snd] in Hs. subst r.
      eapply IH. unfold rest in Er. rewrite Er. reflexivity.
  - destruct rest as [acts r] eqn:Er. cbn [snd] in Hs. subst r.
    eapply IH. unfold rest in Er. rewrite Er. reflexivity.
Qed.

End ExecExtras.

Module StrategyFacts.
Import Risk Backtest Indicators Strategy RiskFacts ExtraFacts.

Lemma js_at_neg {A} (l : list A) (i : nat) :
  (1 <= i)%nat -> js_at l (- Z.of_nat i) = None <-> (List.length l < i)%nat.
Proof.
  intros Hi. unfold js_at.
  replace (- Z.of_nat i <? 0)%Z with true by (symmetry; apply Z.ltb_lt; lia).
  destruct (Nat.lt_ge_cases (List.length l) i) as [Hlt|Hge].
  - replace (0 <=? Z.of_nat (List.length l) + - Z.of_nat i)%Z with false
      by (symmetry; apply Z.leb_gt; lia).
    cbn [andb]. split; [intros _; exact Hlt|reflexivity].
  - replace (0 <=? Z.of_nat (List.length l) + - Z.of_nat i)%Z with true
      by (symmetry; apply Z.leb_le; lia).
    replace (Z.of_nat (List.length l) + - Z.of_nat i <? Z.of_nat (List.length l))%Z with true
      by (symmetry; apply Z.ltb_lt; lia).
    cbn [andb]. rewrite nth_error_None. lia.
Qed.

Lemma atr_tr_none ohlc i :
  atr_tr ohlc i = None <-> js_at ohlc (- Z.of_nat i) = None.
Proof.
  unfold atr_tr. destruct (js_at ohlc (- Z.of_nat i)); split; congruence.
Qed.

Lemma all_some_none {A} (xs : list (option A)) : all_some xs = None <-> In None xs.
Proof.
  induction xs as [|[x|] rest IH]; cbn [all_some In].
  - split; [discriminate|contradiction].
  - destruct (all_some rest); split.
    + discriminate.
    + intros [H|H]; [discriminate|apply IH in H; discriminate].
    + intros _. right. apply IH. reflexivity.
    + intros _. reflexivity.
  - split; [intros _; left; reflexivity|reflexivity].
Qed.

Lemma all_some_in {A} (xs : list (option A)) ys y :
  all_some xs = Some ys -> In y ys -> In (Some y) xs.
Proof.
  revert ys. induction xs as [|[x|] rest IH]; intros ys H Hy; cbn [all_some] in H.
  - injection H as <-. contradiction.
  - destruct (all_some rest) as [zs|] eqn:E; [|discriminate].
    injection H as <-. destruct Hy as [<-|Hy]; [left; reflexivity|].
    right. eapply IH; [reflexivity|exact Hy].
  - discriminate.
Qed.

Lemma atr_none_iff ohlc len :
  (1 <= len)%nat -> atr ohlc len = None <-> (List.length ohlc < len)%nat.
Proof.
  intros Hl. unfold atr.
  assert (H : all_some (map (atr_tr ohlc) (seq 1 len)) = None <-> (List.length ohlc < len)%nat).
  { rewrite all_some_none, in_map_iff. split.
    - intros (i & Hi & Hin). apply in_seq in Hin.
      apply atr_tr_none, js_at_neg in Hi; lia.
    - intros Hlt. exists len. split; [|apply in_seq; lia].
      apply atr_tr_none, js_at_neg; lia. }
  destruct (all_some _) eqn:E; rewrite <- H; split; congruence.
Qed.

Lemma atr_some_nonneg ohlc len a : atr ohlc len = Some a -> 0 <= a.
Proof.
  unfold atr. destruct (all_some _) as [trs|] eqn:E; [|discriminate].
  intros Ha. injection Ha as <-. apply div_nonneg.
  - apply fold_plus_nonneg; [lra|]. apply Forall_forall. intros y Hy.
    apply (all_some_in _ _ _ E), in_map_iff in Hy. destruct Hy as (i & Hi & _).
    unfold atr_tr in Hi. destruct (js_at ohlc (- Z.of_nat i)); [|discriminate].
    injection Hi as <-. apply true_range_nonneg.
  - change 0 with (inject_Z 0). rewrite <- Zle_Qle. lia.
Qed.

End StrategyFacts.

Module StrategyExtras.
Import Risk Backtest Indicators Strategy JsonData Exec Bot ExtraFacts StrategyFacts.

(** [atr(ohlc, len)] throws exactly when fewer than [len] candles are
    given ([ohlc.at(-i)] is undefined for [i > ohlc.length]); otherwise it
    is a non-negative number. *)
Theorem atr_throws_iff_short ohlc len :
  (1 <= len)%nat ->
  (atr ohlc len = None <-> (List.length ohlc < len)%nat) /\
  (forall a, atr ohlc len = Some a -> 0 <= a).
Proof.
  intros Hl. split; [apply atr_none_iff; exact Hl|]. intros a. apply atr_some_nonneg.
Qed.

(** [generateSignal] rejects (the ATR of the prompt throws outside any
    try/catch) exactly on a non-empty history of fewer than 50 candles. *)
Theorem generateSignal_rejects_short_history ohlc answer :
  generateSignal ohlc answer = Rejected <-> ohlc <> [] /\ (List.length ohlc < 50)%nat.
Proof.
  unfold generateSignal. destruct ohlc as [|c rest] eqn:Eo.
  - split; [discriminate|intros [H _]; contradiction].
  - rewrite <- Eo. pose proof (atr_none_iff ohlc 50 ltac:(lia)) as H.
    destruct (atr ohlc 50) eqn:Ea.
    + split.
      * destruct answer; discriminate.
      * intros [_ Hs]. apply H in Hs. discriminate.
    + split; [intros _; split; [rewrite Eo; discriminate|apply H; reflexivity]|reflexivity].
Qed.

Lemma ptrade_fold_exit fills acc :
  Forall (fun f => truthy_ts (ef_timestamp f) = false) fills ->
  Forall (fun t => truthy_ts (pt_exitTime t) = false) (fst acc) ->
  Forall (fun t => truthy_ts (pt_exitTime t) = false) (fst (fold_left ptrade_step fills acc)).
Proof.
  revert acc. induction fills as [|f rest IH]; intros [trades cur] Hf Ht; cbn [fold_left]; [exact Ht|].
  inversion Hf as [|? ? Hf0 Hrest]; subst. apply IH; [exact Hrest|].
  unfold ptrade_step. destruct cur as [t|]; [|exact Ht].
  destruct (negb _); cbn [fst]; [|exact Ht].
  apply Forall_app. split; [exact Ht|constructor; [exact Hf0|constructor]].
Qed.

(** The engine's placeholder [buildLast10ClosedFromRawFills] takes each
    trade's [exitTime] from [fill.timestamp]: fills without a truthy
    [timestamp] yield no closed trade at all. *)
Theorem engine_build_last10_no_timestamps fills n :
  Forall (fun f => truthy_ts (ef_timestamp f) = false) fills ->
  Strategy.buildLast10ClosedFromRawFills fills n = [].
Proof.
  intros Hf. unfold Strategy.buildLast10ClosedFromRawFills.
  pose proof (ptrade_fold_exit fills ([], None) Hf (Forall_nil _)) as H.
  set (trades := fst (fold_left ptrade_step fills ([], None))) in *.
  assert (Hk : filter (fun t => truthy_ts (pt_exitTime t)) trades = []).
  { induction H as [|t ts Ht _ IH]; [reflexivity|]. cbn [filter]. rewrite Ht. exact IH. }
  rewrite Hk. apply js_slice_nil.
Qed.

Lemma ptrade_fold_pairs fills trades cur :
  (2 * List.length (fst (fold_left ptrade_step fills (trades, cur))) +
     (match snd (fold_left ptrade_step fills (trades, cur)) with Some _ => 1 | None => 0 end)
   <= 2 * List.length trades + (match cur with Some _ => 1 | None => 0 end) + List.length fills)%nat.
Proof.
  revert trades cur. induction fills as [|f rest IH]; intros trades cur; cbn [fold_left List.length fst snd]; [lia|].
  destruct (ptrade_step (trades, cur) f) as [trades' cur'] eqn:E.
  specialize (IH trades' cur').
  unfold ptrade_step in E. destruct cur as [t|].
  - destruct (negb _); injection E as <- <-; [rewrite length_app in IH; cbn [List.length] in IH|]; lia.
  - injection E as <- <-. lia.
Qed.

(** Every trade the placeholder builds consumes two fills, an opening and
    a closing one: at most half the fills come back as trades. *)
Theorem engine_build_last10_pairs fills n :
  (2 * List.length (Strategy.buildLast10ClosedFromRawFills fills n) <= List.length fills)%nat.
Proof.
  unfold Strategy.buildLast10ClosedFromRawFills.
  pose proof (ptrade_fold_pairs fills [] None) as H. cbn [List.length] in H.
  pose proof (js_slice_length_le (filter (fun t => truthy_ts (pt_exitTime t))
                (fst (fold_left ptrade_step fills ([], None))))
                (- Z.of_nat n) (Z.of_nat (List.length (filter (fun t => truthy_ts (pt_exitTime t))
                (fst (fold_left ptrade_step fills ([], None))))))) as Hs.
  pose proof (filter_length_le (fun t => truthy_ts (pt_exitTime t))
                (fst (fold_left ptrade_step fills ([], None)))) as Hf.
  destruct (snd (fold_left ptrade_step fills ([], None))); lia.
Qed.

(** [readLast10ClosedTradesFromFile] returns at most ten records, all
    with a truthy [exitTime], and [] when the file is missing or holds no
    array. *)
Theorem readLast10_bound file :
  (List.length (readLast10ClosedTradesFromFile file) <= 10)%nat /\
  Forall (fun t => truthy (get "exitTime" (Some t)) = true) (readLast10ClosedTradesFromFile file) /\
  ((forall items, file <> Returned (JArr items)) -> readLast10ClosedTradesFromFile file = []).
Proof.
  destruct file as [|j].
  - split; [cbn; lia|split; [constructor|reflexivity]].
  - destruct j; try (split; [cbn; lia|split; [constructor|reflexivity]]).
    cbn [readLast10ClosedTradesFromFile].
    set (kept := filter _ items).
    change (-10)%Z with (- Z.of_nat 10)%Z. rewrite js_slice_suffix. cbn [Nat.eqb].
    split; [|split].
    + rewrite length_skipn. lia.
    + apply Forall_forall. intros t Ht. apply in_skipn_l in Ht.
      apply filter_In in Ht. apply Ht.
    + intros H. exfalso. apply (H items). reflexivity.
Qed.

(** The records the bot writes to ./trades.json have no [exitTime] key,
    so the engine reads no closed trade back from the bot's own file. *)
Theorem bot_file_has_no_closed_trades ts :
  readLast10ClosedTradesFromFile (Returned (JArr (map trade_json ts))) = [].
Proof.
  cbn [readLast10ClosedTradesFromFile].
  assert (Hk : filter (fun t => truthy (get "exitTime" (Some t))) (map trade_json ts) = []).
  { induction ts as [|t rest IH]; [reflexivity|]. cbn [map filter].
    rewrite IH. unfold trade_json, get.
    destruct (bt_pnl t); reflexivity. }
  rewrite Hk. apply js_slice_nil.
Qed.

End StrategyExtras.

(** ** The backtest run with the strategy engine as its signal source *)
Module EngineRun.
Import Risk Backtest Indicators Strategy ExtraFacts StrategyFacts.




End EngineRun.

Module BotExtras.
Import Risk Indicators JsonData Bot ExtraFacts RiskFacts.

Lemma group_threes_length cs : List.length (group_threes cs) = (List.length cs / 3)%nat.
Proof.
  induction cs as [cs IH] using (well_founded_induction (Wf_nat.well_founded_ltof _ (@List.length Bar))).
  destruct cs as [|c0 [|c1 [|c2 rest]]]; try reflexivity.
  cbn [group_threes List.length]. rewrite IH by (unfold Wf_nat.ltof; cbn; lia).
  replace (S (S (S (List.length rest)))) with (List.length rest + 1 * 3)%nat by lia.
  rewrite Nat.div_add by lia. lia.
Qed.

(** The 3-minute series has one candle per complete group of three
    1-minute candles; a trailing partial group is dropped. *)
Theorem createThreeMinuteCandles_length cs :
  List.length (createThreeMinuteCandles cs) = (List.length cs / 3)%nat.
Proof.
  unfold createThreeMinuteCandles.
  destruct (Nat.ltb_spec (List.length cs) 3) as [H|H].
  - rewrite Nat.div_small by exact H. reflexivity.
  - apply group_threes_length.
Qed.

(** Aggregation keeps every candle consistent: if each 1-minute candle
    has its close between its low and high, so does each 3-minute
    candle. *)
Theorem createThreeMinuteCandles_ranges cs :
  Forall (fun b => b_low b <= b_close b /\ b_close b <= b_high b) cs ->
  Forall (fun b => b_low b <= b_close b /\ b_close b <= b_high b) (createThreeMinuteCandles cs).
Proof.
  intros H. unfold createThreeMinuteCandles.
  destruct (List.length cs <? 3)%nat; [constructor|].
  induction cs as [cs IH] using (well_founded_induction (Wf_nat.well_founded_ltof _ (@List.length Bar))).
  destruct cs as [|c0 [|c1 [|c2 rest]]]; try constructor.
  - inversion H as [|? ? _ K1]. inversion K1 as [|? ? _ K2]. inversion K2 as [|? ? [Hl Hh] _].
    cbn [b_low b_close b_high]. unfold min3, max3. split.
    + eapply Qle_trans; [apply math_min_le_r|exact Hl].
    + eapply Qle_trans; [exact Hh|apply math_max_ge_r].
  - apply IH; [unfold Wf_nat.ltof; cbn; lia|].
    inversion H as [|? ? _ K1]. inversion K1 as [|? ? _ K2]. inversion K2 as [|? ? _ K3]. exact K3.
Qed.

Lemma cycle_empty_mem ci file :
  ci_write ci = true ->
  Forall (fun t => bt_pnl t = None) (match file with Some ts => ts | None => [] end) ->
  snd (cycle ci (file, [])) = [] /\
  Forall (fun t => bt_pnl t = None) (match fst (cycle ci (file, [])) with Some ts => ts | None => [] end).
Proof.
  intros Hw Hf. unfold cycle.
  destruct (ci_lastPrice ci) as [lp|]; cbn [List.length Nat.ltb].
  - destruct (ci_order ci) as [[[date sig] params]|]; cbn [List.length Nat.ltb app].
    + unfold saveTradesToFile. rewrite Hw. cbn [fst snd]. split; [reflexivity|].
      apply Forall_app. split; [exact Hf|constructor; [reflexivity|constructor]].
    + split; [reflexivity|exact Hf].
  - split; [reflexivity|exact Hf].
Qed.

(** While every write of ./trades.json succeeds, the in-memory list is
    emptied at each save, so the pnl update never sees a saved trade: no
    record written by the bot ever carries a pnl. *)
Theorem bot_saved_trades_have_no_pnl cis file :
  Forall (fun ci => ci_write ci = true) cis ->
  Forall (fun t => bt_pnl t = None) (match file with Some ts => ts | None => [] end) ->
  snd (run_cycles cis (file, [])) = [] /\
  Forall (fun t => bt_pnl t = None)
    (match fst (run_cycles cis (file, [])) with Some ts => ts | None => [] end).
Proof.
  revert file. induction cis as [|ci rest IH]; intros file Hw Hf; cbn [run_cycles].
  - split; [reflexivity|exact Hf].
  - inversion Hw as [|? ? Hw0 Hrest]; subst.
    destruct (cycle_empty_mem ci file Hw0 Hf) as [Hm Hf'].
    destruct (cycle ci (file, [])) as [file' mem] eqn:Ec. cbn [fst snd] in Hm, Hf'. subst mem.
    apply IH; assumption.
Qed.

End BotExtras.

Module ExtraWitnesses.
Import Risk Backtest Indicators Fills Exec JsonData DataH Strategy Bot.
Import BacktestExtras RiskExtras FillExtras ExecExtras StrategyExtras EngineRun BotExtras.

Lemma calculateATR_nonneg_witness :
  exists a, calculateATR two_candles 14 = Some a /\ 0 <= a.
Proof.
  eexists. split; [vm_compute; reflexivity|].
  apply (calculateATR_nonneg two_candles 14). vm_compute. reflexivity.
Defined.

Lemma run_api_calls_bounded_witness :
  exists ex' n how,
    run (mkConfig 1 1 5 0) hold_source two_candles (mkPaper 10000 None []) = RunDone ex' n how /\
    (n <= MAX_API_CALLS (mkConfig 1 1 5 0))%nat /\
    (n <= List.length (filterByDate two_candles) - WARMUP_PERIOD (mkConfig 1 1 5 0))%nat.
Proof.
  do 3 eexists. split; [vm_compute; reflexivity|].
  eapply (run_api_calls_bounded (mkConfig 1 1 5 0) hold_source two_candles (mkPaper 10000 None [])).
  vm_compute. reflexivity.
Defined.

Lemma checkExit_levels_witness :
  exists p r, checkExit_decision both_touched_trade wide_candle = Some (p, r) /\
    t_signal both_touched_trade <> HOLD /\
    ((r = StopLossExit /\ p = t_stopLoss both_touched_trade) \/
     (r = TakeProfitExit /\ p = t_takeProfit both_touched_trade)).
Proof.
  do 2 eexists. split; [vm_compute; reflexivity|].
  apply (checkExit_levels both_touched_trade wide_candle). vm_compute. reflexivity.
Defined.



Lemma fetch_failure_blocks_sizing_witness :
  let data := JObj [("accounts"%string, JObj [("flex"%string,
                 JObj [("availableMargin"%string, JStr "10000")])])] in
  [candle_at 50000] <> [] /\
  (forall m, available_margin data <> Some (JNum m)) /\
  calculateTradeParameters backtest_rm
    (mkMarketData (Some (fetchAccountBalance (Returned data))) [candle_at 50000])
    scenarioA_signal = Null.
Proof.
  intros data. split; [discriminate|].
  assert (Hm : forall m, available_margin data <> Some (JNum m))
    by (intros m; vm_compute; discriminate).
  split; [exact Hm|].
  apply fetch_failure_blocks_sizing; [discriminate|].
  right. exists data. split; [reflexivity|exact Hm].
Defined.

Lemma realizedPnl_round_trip_witness :
  let st := realizedPnlStatsFromFills [mkFill "sell" 1 100 1000; mkFill "buy" 1 105 2000] in
  0 < 1 /\
  realisedPnL st == (105 - 100) * 1 * 100 /\ totalCloses st = 1%nat /\
  (winCount st = 1%nat <-> 0 < (105 - 100) * 1 * 100).
Proof.
  cbv zeta. split; [reflexivity|].
  apply (realizedPnl_round_trip "sell" "buy" 1 100 105 1000 2000); [right; reflexivity|reflexivity].
Defined.

Lemma buildLast10_times_after_start_witness :
  In trade101 (Fills.buildLast10ClosedFromRawFills 1000 (rev scenarioB) 10) /\
  (1000 <= ct_entryTime trade101 /\ 1000 <= ct_exitTime trade101)%Z.
Proof.
  assert (H : In trade101 (Fills.buildLast10ClosedFromRawFills 1000 (rev scenarioB) 10))
    by (vm_compute; left; reflexivity).
  split; [exact H|]. exact (buildLast10_times_after_start 1000 (rev scenarioB) 10 trade101 H).
Defined.

Lemma buildLast10_at_most_n_witness :
  (1 <= 1)%nat /\ (List.length (Fills.buildLast10ClosedFromRawFills 0 (rev scenarioB) 1) <= 1)%nat.
Proof.
  split; [lia|]. apply (buildLast10_at_most_n 0 (rev scenarioB) 1). lia.
Defined.

Lemma monitorOrderFill_match_witness :
  exists o, snd (monitorOrderFill filling_venue (Some "e1"%string)) = Some o /\
    vo_isFilled o = true /\ opt_string_eqb (vo_orderId o) (Some "e1"%string) = true.
Proof.
  eexists. split; [vm_compute; reflexivity|].
  apply (monitorOrderFill_match filling_venue (Some "e1"%string)). vm_compute. reflexivity.
Defined.

Lemma atr_throws_iff_short_witness :
  (1 <= 50)%nat /\
  (atr two_candles 50 = None <-> (List.length two_candles < 50)%nat) /\
  (forall a, atr two_candles 50 = Some a -> 0 <= a).
Proof.
  split; [lia|]. apply atr_throws_iff_short. lia.
Defined.

Lemma engine_build_last10_no_timestamps_witness :
  let fills := [mkEFill "buy" 100 1 None; mkEFill "sell" 105 1 None] in
  Forall (fun f => truthy_ts (ef_timestamp f) = false) fills /\
  Strategy.buildLast10ClosedFromRawFills fills 10 = [].
Proof.
  intros fills.
  assert (H : Forall (fun f => truthy_ts (ef_timestamp f) = false) fills)
    by (repeat constructor).
  split; [exact H|]. apply engine_build_last10_no_timestamps. exact H.
Defined.

Lemma createThreeMinuteCandles_ranges_witness :
  let cs := [mkBar 100 102 99 101 5 60; mkBar 101 104 100 103 7 120; mkBar 103 103 98 99 4 180] in
  Forall (fun b => b_low b <= b_close b /\ b_close b <= b_high b) cs /\
  Forall (fun b => b_low b <= b_close b /\ b_close b <= b_high b) (createThreeMinuteCandles cs).
Proof.
  intros cs.
  assert (H : Forall (fun b => b_low b <= b_close b /\ b_close b <= b_high b) cs)
    by (repeat constructor; vm_compute; discriminate).
  split; [exact H|]. apply createThreeMinuteCandles_ranges. exact H.
Defined.

Lemma bot_saved_trades_have_no_pnl_witness :
  let cis := [mkCycleInput (Some 50000) (Some ("2025-07-02"%string, LONG, Exec.scenarioA_params)) true;
              mkCycleInput (Some 60000) None true] in
  Forall (fun ci => ci_write ci = true) cis /\
  Forall (fun t => bt_pnl t = None) (match (None : option (list BotTrade)) with Some ts => ts | None => [] end) /\
  snd (run_cycles cis (None, [])) = [] /\
  Forall (fun t => bt_pnl t = None)
    (match fst (run_cycles cis (None, [])) with Some ts => ts | None => [] end).
Proof.
  intros cis.
  assert (H : Forall (fun ci => ci_write ci = true) cis) by (repeat constructor).
  split; [exact H|]. split; [constructor|].
  apply bot_saved_trades_have_no_pnl; [exact H|constructor].
Defined.

End ExtraWitnesses.
